(** * Walk-forward backtest callback: a shallow embedding of
      [src/callbacks/backtest.py] and the properties of its helpers.

    The development follows the Python module top-down:
    - [overlap_factor] and [closed_arange], the two module-level helpers;
    - [get_optimal_parameters], the per-window selection;
    - [perform_backtest], the callback body, written as a program over the
      calls it makes to its collaborators (data source, vectorbt, pandas,
      the cache).
    - [window_length], the window length of the window plot
      ([src/components/plotting.py]), to compare with that of the backtest.

    Conventions.  Python [int] is [Z].  NumPy integers of a given [dtype] are
    [Z] values wrapped into the dtype's two's-complement range by [cast].
    Python [float] is idealised by the number it approximates: a real ([R])
    where pi and atan occur (the overlap factor and the window length), a
    rational ([Q]) elsewhere; the values of a metric, which the callback
    only compares, also carry NaN and the infinities ([float_val]).
    A Python exception is a [Raise] result.  The objects of vectorbt and
    pandas are opaque ([Library]); a call to a collaborator is a node of the
    program ([prog]), answered by a [handler]. *)

From Stdlib Require Import ZArith QArith Qround List Finite Sorted Bool.
From Stdlib Require Import String Ascii Lia Reals Lra Psatz.
From ExtLib Require Import Structures.Monad.
Import ListNotations.
Import MonadNotation.

Local Open Scope Z_scope.
Local Open Scope monad_scope.

(** ** Python results *)

(** The exceptions the callback raises itself, and those of its
    collaborators. *)
Inductive exn : Type :=
| IndexError
| ZeroDivisionError
| ValueError
| UnboundLocalError
| LibraryError (code : Z).

Inductive result (A : Type) : Type :=
| Ok (a : A)
| Raise (e : exn).

Arguments Ok {A} a.
Arguments Raise {A} e.

Definition result_bind {A B} (r : result A) (k : A -> result B) : result B :=
  match r with
  | Ok a => k a
  | Raise e => Raise e
  end.

#[export] Instance Monad_result : Monad result :=
  {| ret := @Ok; bind := @result_bind |}.

(** [l[i]] with Python's negative indices. *)
Definition py_index {A} (l : list A) (i : Z) : result A :=
  let n := Z.of_nat (List.length l) in
  let j := if i <? 0 then i + n else i in
  if (0 <=? j) && (j <? n)
  then match nth_error l (Z.to_nat j) with
       | Some a => Ok a
       | None => Raise IndexError
       end
  else Raise IndexError.

(** ** NumPy integer arrays *)

Inductive np_dtype : Type := int16 | int64.

Definition bits (d : np_dtype) : Z :=
  match d with int16 => 16 | int64 => 64 end.

(** Conversion to the dtype: two's-complement wrap-around. *)
Definition cast (d : np_dtype) (z : Z) : Z :=
  (z + 2 ^ (bits d - 1)) mod 2 ^ bits d - 2 ^ (bits d - 1).

Definition fits (d : np_dtype) (z : Z) : Prop :=
  - 2 ^ (bits d - 1) <= z < 2 ^ (bits d - 1).

(** [dtype=None] with integer arguments is the platform integer. *)
Definition dtype_or_default (dtype : option np_dtype) : np_dtype :=
  match dtype with Some d => d | None => int64 end.

(** ceil(a / b) for b <> 0, as [np.arange] computes its length. *)
Definition ceil_div (a b : Z) : Z := - ((- a) / b).

(** [np.arange(start, stop, step, dtype=dtype)] on integers: the length is
    ceil((stop - start) / step), clipped at 0; element [i] is
    [start + i * step] in the dtype. *)
Definition np_arange (start stop step : Z) (dtype : option np_dtype)
  : result (list Z) :=
  if step =? 0 then Raise ZeroDivisionError
  else
    let len := Z.to_nat (ceil_div (stop - start) step) in
    Ok (map (fun i => cast (dtype_or_default dtype) (start + Z.of_nat i * step))
            (seq 0 len)).

(** ** [closed_arange] (backtest.py, lines 31-36) *)

Definition closed_arange (start stop step : Z) (dtype : option np_dtype)
  : result (list Z) :=
  array <- np_arange start stop step dtype ;;
  last_value <- py_index array (-1) ;;
  if cast (dtype_or_default dtype) (last_value + step) <=? stop
  then
    let end_value := [cast (dtype_or_default dtype) stop] in
    ret (array ++ end_value)
  else ret array.

(** The arithmetic progression [start, start + step, ...] of [n] terms. *)
Definition progression (start step : Z) (n : nat) : list Z :=
  map (fun i => start + Z.of_nat i * step) (seq 0 n).

(** The statement "the final element equals [stop]". *)
Definition ends_at_stop (start stop step : Z) (dtype : option np_dtype) : Prop :=
  exists l, closed_arange start stop step dtype = Ok l /\ last l start = stop.

(** ** [overlap_factor] (backtest.py, lines 23-28) *)

Definition factors : list R := [0.375; 0.5; 0.56; 0.6; 0.625; 0.64]%R.

Definition overlap_factor (nwindows : Z) : result R :=
  if nwindows <? 8
  then py_index factors (nwindows - 2)
  else ret ((13 / (9 * PI)) * atan (IZR nwindows))%R.

(** ** Python numbers and strings *)

(** [round(x)] on a float: to the nearest integer, ties to the even one. *)
Definition py_round (x : R) : Z :=
  let f := (up x - 1)%Z in
  let d := (x - IZR f)%R in
  if Rlt_dec d (1 / 2) then f
  else if Rlt_dec (1 / 2) d then f + 1
  else if Z.even f then f else f + 1.

(** The same on a float whose value is rational. *)
Definition py_round_Q (x : Q) : Z :=
  let f := Qfloor x in
  match Qcompare (x - inject_Z f) (1 # 2) with
  | Lt => f
  | Gt => f + 1
  | Eq => if Z.even f then f else f + 1
  end.

(** [round(x, ndigits)] for [ndigits >= 0]. *)
Definition py_round_ndigits (x : Q) (ndigits : Z) : Q :=
  (inject_Z (py_round_Q (x * inject_Z (10 ^ ndigits))) / inject_Z (10 ^ ndigits))%Q.

(** Text produced by [str.format] or an f-string: literal pieces and
    formatted floats, the latter kept as the number they print. *)
Inductive piece : Type :=
| Lit (s : string)
| Flt (x : Q).

Definition formatted : Type := list piece.

(** [s[:-1]] *)
Fixpoint drop_last (s : string) : string :=
  match s with
  | EmptyString => EmptyString
  | String c EmptyString => EmptyString
  | String c rest => String c (drop_last rest)
  end.

Definition is_space (c : ascii) : bool :=
  let n := nat_of_ascii c in
  ((9 <=? n) && (n <=? 13))%nat || (n =? 32)%nat.

Definition digit_of (c : ascii) : option Z :=
  let n := nat_of_ascii c in
  if ((48 <=? n) && (n <=? 57))%nat then Some (Z.of_nat (n - 48)) else None.

Fixpoint lstrip (s : string) : string :=
  match s with
  | String c rest => if is_space c then lstrip rest else s
  | EmptyString => EmptyString
  end.

(** Reads [digit (_? digit)*] followed by optional white space up to the end
    of the string; [acc] is the value read so far; [after_digit] tells
    whether the previous character was a digit. *)
Fixpoint read_digits (s : string) (acc : Z) (after_digit : bool) : option Z :=
  match s with
  | EmptyString => if after_digit then Some acc else None
  | String c rest =>
      match digit_of c with
      | Some d => read_digits rest (10 * acc + d) true
      | None =>
          if after_digit then
            if ascii_dec c "_"%char then
              match rest with
              | String c' _ =>
                  match digit_of c' with
                  | Some _ => read_digits rest acc false
                  | None => None
                  end
              | EmptyString => None
              end
            else if is_space c then
              match lstrip rest with
              | EmptyString => Some acc
              | _ => None
              end
            else None
          else None
      end
  end.

(** [int(s)] for a string [s] in base 10. *)
Definition py_int (s : string) : result Z :=
  let unsigned (t : string) : result Z :=
    match t with
    | String c _ =>
        match digit_of c, read_digits t 0 false with
        | Some _, Some n => Ok n
        | _, _ => Raise ValueError
        end
    | EmptyString => Raise ValueError
    end in
  match lstrip s with
  | String "-"%char rest => n <- unsigned rest ;; ret (- n)
  | String "+"%char rest => unsigned rest
  | t => unsigned t
  end.

(** ** Data exchanged with the collaborators *)

(** One bar of the price series returned by the data source. *)
Record bar : Type := mk_bar {
  bar_date : Z;
  bar_open : Q;
  bar_high : Q;
  bar_low : Q;
  bar_close : Q;
  bar_volume : Z
}.

Definition DataFrame : Type := list bar.

(** The close column indexed by date. *)
Definition Close : Type := list (Z * Q).

(** A value of a metric: a float that the program only compares. *)
Inductive float_val : Type :=
| NaN
| NegInf
| Fin (q : Q)
| PosInf.

Definition is_nan (v : float_val) : bool :=
  match v with NaN => true | _ => false end.

(** [a < b] on floats; false as soon as one side is NaN. *)
Definition float_ltb (a b : float_val) : bool :=
  match a, b with
  | NaN, _ | _, NaN => false
  | _, NegInf => false
  | NegInf, _ => true
  | PosInf, _ => false
  | _, PosInf => true
  | Fin x, Fin y => match Qcompare x y with Lt => true | _ => false end
  end.

Definition float_gtb (a b : float_val) : bool := float_ltb b a.

(** A column label of a portfolio: the two parameter levels and the window
    index (level "split_idx"). *)
Record label : Type := mk_label {
  first : Z;
  second : Z;
  split_idx : Z
}.

Definition label_eqb (a b : label) : bool :=
  (first a =? first b) && (second a =? second b) && (split_idx a =? split_idx b).

(** The metric Series obtained with [deep_getattr]: one value per column,
    in column order. *)
Definition Series : Type := list (label * float_val).

(** Parameter arrays handed to [backtest_windows]: a one-dimensional array
    of periods, or two rows (first and second parameter). *)
Inductive params : Type :=
| Periods (values : list Z)
| Rows (row0 row1 : list Z).

(** One item of such an array, [p[i]]: a scalar or a row. *)
Inductive item : Type :=
| Scalar (z : Z)
| Array (values : list Z).

Definition params_index (p : params) (i : Z) : result item :=
  match p with
  | Periods values => z <- py_index values i ;; ret (Scalar z)
  | Rows row0 row1 => row <- py_index [row0; row1] i ;; ret (Array row)
  end.

(** The keyword arguments of [Portfolio.from_signals]. *)
Record pf_kwargs : Type := mk_pf_kwargs {
  direction : string;
  freq : formatted;
  init_cash : Z;
  fees : Q;
  slippage : Q
}.

(** The objects of vectorbt and pandas that the callback only passes on. *)
Class Library : Type := {
  Price : Type;       (* the price frame of all windows of one kind *)
  DateIndex : Type;   (* the dates of one window *)
  Indicator : Type;
  Signals : Type;
  Portfolio : Type;
  Frame : Type;       (* a pandas DataFrame or Series *)
  Pickle : Type;
  Cell : Type         (* a scalar inside a Frame *)
}.

Section Calls.
Context {L : Library}.

(** Argument of [real_crossed_above]/[real_crossed_below]: the [real]
    output of another indicator, or an array of thresholds. *)
Inductive cross_arg : Type :=
| Real (other : Indicator)
| Thresholds (values : item).

Inductive agg : Type := agg_max | agg_mean.

(** The pandas expressions of the report. *)
Inductive frame_op : Type :=
| reset_index_drop (f : Frame)
| rename_columns (f : Frame) (mapping : list (string * string))
| new_DataFrame (columns_data : list (list Z)) (columns : option (list string))
| Series_times_100 (f : Frame) (name : option string)
| concat_round (frames : list Frame) (decimals : Z)
| groupby_split_idx (f : Frame) (how : agg)
| set_columns (f : Frame) (columns : list string).

(** The calls of the callback to its collaborators. *)
Inductive call : Type :=
| cached_df (timeframe asset start_date end_date : string)
| rolling_split (close : Close) (n : Z) (set_lens : Q) (window_len : Z)
| run_combs (talib : string) (price : Price) (periods : params)
| run (talib : string) (price : Price) (param : item) (per_column : bool)
| real_crossed_above (ind : Indicator) (other : cross_arg)
| real_crossed_below (ind : Indicator) (other : cross_arg)
| from_signals (price : Price) (entries exits : Signals) (kwargs : pf_kwargs)
| deep_getattr (pf : Portfolio) (metric : string)
| dumps (pf : Portfolio)
| cache_set (key : string) (value : Pickle) (timeout : Z)
| print (text : string)
| pf_stats (pf : Portfolio) (metric : option string)
| pf_metric (pf : Portfolio) (name : string)
| pandas (op : frame_op)
| frame_mean (f : Frame)
| num_unique_dates (idx : DateIndex)
| frame_columns (f : Frame)
| frame_values (f : Frame)
| to_dict_records (f : Frame).

(** What each call returns. *)
Definition resp (c : call) : Type :=
  match c with
  | cached_df _ _ _ _ => DataFrame
  | rolling_split _ _ _ _ =>
      ((Price * list DateIndex) * (Price * list DateIndex))%type
  | run_combs _ _ _ => (Indicator * Indicator)%type
  | run _ _ _ _ => Indicator
  | real_crossed_above _ _ | real_crossed_below _ _ => Signals
  | from_signals _ _ _ _ => Portfolio
  | deep_getattr _ _ => Series
  | dumps _ => Pickle
  | cache_set _ _ _ | print _ => unit
  | pf_stats _ _ | pf_metric _ _ | pandas _ => Frame
  | frame_mean _ => Q
  | num_unique_dates _ => Z
  | frame_columns _ => list string
  | frame_values _ => list (list Cell)
  | to_dict_records _ => list (list (string * Cell))
  end.

(** A computation that calls collaborators, returns or raises. *)
Inductive prog (A : Type) : Type :=
| Return (a : A)
| Throw (e : exn)
| Call (c : call) (k : resp c -> prog A).

Arguments Return {A} a.
Arguments Throw {A} e.
Arguments Call {A} c k.

Fixpoint prog_bind {A B} (p : prog A) (f : A -> prog B) : prog B :=
  match p with
  | Return a => f a
  | Throw e => Throw e
  | Call c k => Call c (fun r => prog_bind (k r) f)
  end.

#[export] Instance Monad_prog : Monad prog :=
  {| ret := @Return; bind := @prog_bind |}.

Definition perform (c : call) : prog (resp c) := Call c Return.

Definition lift {A} (r : result A) : prog A :=
  match r with
  | Ok a => Return a
  | Raise e => Throw e
  end.

(** The collaborators: each call returns a value or raises. *)
Definition handler : Type := forall c : call, result (resp c).

(** Runs a program against the collaborators; yields the calls made, in
    order, and the outcome. *)
Fixpoint exec {A} (h : handler) (p : prog A) : list call * result A :=
  match p with
  | Return a => ([], Ok a)
  | Throw e => ([], Raise e)
  | Call c k =>
      match h c with
      | Ok r => let (t, out) := exec h (k r) in (c :: t, out)
      | Raise e => ([c], Raise e)
      end
  end.

Definition trace {A} (h : handler) (p : prog A) : list call := fst (exec h p).
Definition outcome {A} (h : handler) (p : prog A) : result A := snd (exec h p).

End Calls.

Arguments Return {L A} a.
Arguments Throw {L A} e.
Arguments Call {L A} c k.

(** ** [get_optimal_parameters] (backtest.py, lines 142-150) *)

(** Inserts a window index into an ascending list without repetition. *)
Fixpoint insert_key (k : Z) (keys : list Z) : list Z :=
  match keys with
  | [] => [k]
  | k' :: rest =>
      if k <? k' then k :: keys
      else if k =? k' then keys
      else k' :: insert_key k rest
  end.

(** The groups of [groupby("split_idx")]: the distinct window indices, in
    ascending order. *)
Definition group_keys (s : Series) : list Z :=
  fold_right (fun e keys => insert_key (split_idx (fst e)) keys) [] s.

Definition group (s : Series) (k : Z) : Series :=
  filter (fun e => split_idx (fst e) =? k) s.

(** [idxmax]/[idxmin] of one group: NaN is skipped and the first entry that
    no later entry beats is kept; [better v w] tells that [v] beats [w]. *)
Fixpoint idx_best (better : float_val -> float_val -> bool)
  (entries : Series) (best : option (label * float_val))
  : option (label * float_val) :=
  match entries with
  | [] => best
  | (lab, v) :: rest =>
      if is_nan v then idx_best better rest best
      else
        match best with
        | None => idx_best better rest (Some (lab, v))
        | Some (_, w) =>
            if better v w then idx_best better rest (Some (lab, v))
            else idx_best better rest best
        end
  end.

(** [accessed_metric.groupby("split_idx").idxmax()] (or [idxmin]): one label
    per group; a group without any number has no extremum. *)
Fixpoint groupby_idx (better : float_val -> float_val -> bool)
  (s : Series) (keys : list Z) : result (list label) :=
  match keys with
  | [] => ret []
  | k :: rest =>
      match idx_best better (group s k) None with
      | Some (lab, _) =>
          labels <- groupby_idx better s rest ;;
          ret (lab :: labels)
      | None => Raise ValueError
      end
  end.

(** [accessed_metric[labels]]: the rows carrying each label, in the order
    of the labels. *)
Definition series_loc (s : Series) (labels : list label) : Series :=
  flat_map (fun lab => filter (fun e => label_eqb (fst e) lab) s) labels.

Definition get_optimal_parameters (selected_metric : string)
  (accessed_metric : Series) : result (list Z * list Z) :=
  labels <-
    (if String.eqb selected_metric "max_drawdown"
     then groupby_idx float_ltb accessed_metric (group_keys accessed_metric)
     else groupby_idx float_gtb accessed_metric (group_keys accessed_metric)) ;;
  let indexed_parameters := map fst (series_loc accessed_metric labels) in
  let first_parameters := map first indexed_parameters in
  let second_parameters := map second indexed_parameters in
  ret (first_parameters, second_parameters).

(** ** [perform_backtest] (backtest.py, lines 61-246) *)

(** The callback's arguments. *)
Record request : Type := mk_request {
  n_clicks : Z;
  session_id : string;
  selected_strategy : string;
  nwindows : Z;
  insample : Z;
  selected_timeframe : string;
  selected_asset : string;
  dates : list string;
  selected_direction : string;
  selected_range : list Z;
  selected_metric : string
}.

(** What the callback returns: the three tables and the button's
    [loading] flag. *)
Record report {L : Library} : Type := mk_report {
  averages_table : list (string * formatted);
  insample_table : list (list (string * Cell)) * list (string * string);
  outsample_table : list string * list (list Cell);
  loading : bool
}.

(** Lines 65-70: [close] is bound only for the two known data sources. *)
Definition select_close (data_type : string) (df : DataFrame) : option Close :=
  if String.eqb data_type "postgres"
  then Some (map (fun b => (bar_date b, bar_close b)) df)
  else if String.eqb data_type "yfinance"
  then Some (map (fun b => (bar_date b, bar_close b)) df)
  else None.

(** Line 74: [round(len(df) / ((1 - overlap_factor(nwindows)) * nwindows))]. *)
Definition window_len (len_df nwindows : Z) : result Z :=
  overlap <- overlap_factor nwindows ;;
  let denominator := ((1 - overlap) * IZR nwindows)%R in
  if Req_dec_T denominator 0 then Raise ZeroDivisionError
  else ret (py_round (IZR len_df / denominator)).

(** Lines 78-82. *)
Definition trading_day_conversion : Q := (24 / 6.5)%Q.

Definition time_interval (selected_timeframe : string) : result formatted :=
  if String.eqb selected_timeframe "1d" then ret [Lit "1d"]
  else
    n <- py_int (drop_last selected_timeframe) ;;
    ret [Flt (py_round_ndigits (inject_Z n * trading_day_conversion) 4); Lit "m"].

(** [list(itertools.combinations(values, 2))] *)
Fixpoint combinations (values : list Z) : list (Z * Z) :=
  match values with
  | [] => []
  | x :: rest => map (pair x) rest ++ combinations rest
  end.

Section Callback.
Context {L : Library}.

(** What a strategy branch (lines 86-139) binds. *)
Record strategy_env : Type := mk_strategy_env {
  columns_list : list string;
  optimal_columns_list : list string;
  parameter_values : params;
  backtest_windows : Price -> params -> bool -> prog Portfolio
}.

(** [backtest_windows] of the two crossover branches (lines 93-101 and
    110-118); [talib] is 'SMA' or 'EMA'. *)
Definition crossover_windows (talib : string) (kwargs : pf_kwargs)
  (price : Price) (periods : params) (all_periods : bool) : prog Portfolio :=
  '(fast, slow) <-
    (if all_periods
     then perform (run_combs talib price periods)
     else
       p0 <- lift (params_index periods 0) ;;
       fast <- perform (run talib price p0 true) ;;
       p1 <- lift (params_index periods 1) ;;
       slow <- perform (run talib price p1 true) ;;
       ret (fast, slow)) ;;
  entries <- perform (real_crossed_above fast (Real slow)) ;;
  exits <- perform (real_crossed_below fast (Real slow)) ;;
  perform (from_signals price entries exits kwargs).

(** [backtest_windows] of the RSI branch (lines 135-139). *)
Definition rsi_windows (kwargs : pf_kwargs)
  (price : Price) (entry_exit_values : params) (dummy_variable : bool)
  : prog Portfolio :=
  rsi <- perform (run "RSI" price (Scalar 14) false) ;;
  entry_values <- lift (params_index entry_exit_values 0) ;;
  entries <- perform (real_crossed_below rsi (Thresholds entry_values)) ;;
  exit_values <- lift (params_index entry_exit_values 1) ;;
  exits <- perform (real_crossed_above rsi (Thresholds exit_values)) ;;
  perform (from_signals price entries exits kwargs).

(** Lines 86-139: the branch on [selected_strategy]; no branch is taken for
    an unknown strategy and the names stay unbound. *)
Definition strategy_branch (rq : request) (kwargs : pf_kwargs)
  : result (option strategy_env) :=
  if String.eqb (selected_strategy rq) "SMA Crossover" then
    lo <- py_index (selected_range rq) 0 ;;
    hi <- py_index (selected_range rq) 1 ;;
    values <- closed_arange lo hi 10 (Some int16) ;;
    ret (Some (mk_strategy_env
                 ["Fast SMA Period"; "Slow SMA Period"]%string
                 ["Window"; "Optimal Fast SMA Period"; "Optimal Slow SMA Period";
                  "Optimal Return [%]"; "Return [%]"; "Average Return [%]";
                  "Benchmark Return [%]"]%string
                 (Periods values)
                 (crossover_windows "SMA" kwargs)))
  else if String.eqb (selected_strategy rq) "EMA Crossover" then
    lo <- py_index (selected_range rq) 0 ;;
    hi <- py_index (selected_range rq) 1 ;;
    values <- closed_arange lo hi 10 (Some int16) ;;
    ret (Some (mk_strategy_env
                 ["Fast EMA Period"; "Slow EMA Period"]%string
                 ["Window"; "Optimal Fast EMA Period"; "Optimal Slow EMA Period";
                  "Optimal Return [%]"; "Return [%]"; "Average Return [%]";
                  "Benchmark Return [%]"]%string
                 (Periods values)
                 (crossover_windows "EMA" kwargs)))
  else if String.eqb (selected_strategy rq) "RSI" then
    lo <- py_index (selected_range rq) 0 ;;
    hi <- py_index (selected_range rq) 1 ;;
    raw_parameter_values <- closed_arange lo hi 2 (Some int16) ;;
    let parameter_combinations := combinations raw_parameter_values in
    let parameter_values_entries := map fst parameter_combinations in
    let parameter_values_exits := map snd parameter_combinations in
    ret (Some (mk_strategy_env
                 ["RSI Entry Value"; "RSI Exit Value"]%string
                 ["Window"; "Optimal RSI Entry Value"; "Optimal RSI Exit Value";
                  "Optimal Return [%]"; "Return [%]"; "Average Return [%]";
                  "Benchmark Return [%]"]%string
                 (Rows parameter_values_entries parameter_values_exits)
                 (rsi_windows kwargs)))
  else ret None.

End Callback.

Section Orchestrator.
Context {L : Library}.

Definition unbound {A} (name : option A) : prog A :=
  match name with
  | Some a => ret a
  | None => Throw UnboundLocalError
  end.

(** Lines 192-204: the four rows of the averages table. *)
Definition averages (pf_outsample : Portfolio) (outsample_num_days : Z)
  : prog (list (string * formatted)) :=
  total_return <- perform (pf_metric pf_outsample "total_return") ;;
  mean_return <- perform (frame_mean total_return) ;;
  annualized <-
    (if outsample_num_days =? 0 then Throw ZeroDivisionError
     else ret (py_round_ndigits
                 (mean_return * 100 * (252 / inject_Z outsample_num_days)) 3)%Q) ;;
  total_return <- perform (pf_metric pf_outsample "total_return") ;;
  mean_return <- perform (frame_mean total_return) ;;
  let average_return := py_round_ndigits (mean_return * 100)%Q 2 in
  sharpe_ratio <- perform (pf_metric pf_outsample "sharpe_ratio") ;;
  mean_sharpe <- perform (frame_mean sharpe_ratio) ;;
  let average_sharpe := py_round_ndigits (mean_sharpe * 100)%Q 2 in
  max_drawdown <- perform (pf_metric pf_outsample "max_drawdown") ;;
  mean_drawdown <- perform (frame_mean max_drawdown) ;;
  let average_drawdown := py_round_ndigits (mean_drawdown * 100)%Q 2 in
  ret [("Annualized return", [Flt annualized; Lit "%"]);
       ("Average return per window", [Flt average_return; Lit "%"]);
       ("Average Sharpe ratio", [Flt average_sharpe]);
       ("Average max drawdown", [Flt average_drawdown; Lit "%"])]%string.

(** Lines 206-211. *)
Definition create_table (df : Frame) : prog (list string * list (list Cell)) :=
  columns <- perform (frame_columns df) ;;
  values <- perform (frame_values df) ;;
  ret (columns, values).

(** Lines 77-246: the three sweeps over the windows, the selection, the
    cache and the report. *)
Definition run_windows (rq : request) (in_price out_price : Price)
  (out_dates : list DateIndex) : prog report :=
  (* lines 78-84 *)
  time_interval <- lift (time_interval (selected_timeframe rq)) ;;
  let pf_kwargs :=
    mk_pf_kwargs (selected_direction rq) time_interval 100 0 0 in
  (* lines 86-139 *)
  env <- lift (strategy_branch rq pf_kwargs) ;;
  (* lines 154-155 *)
  env <- unbound env ;;
  pf_insample <- backtest_windows env in_price (parameter_values env) true ;;
  metric <- perform (deep_getattr pf_insample (selected_metric rq)) ;;
  outsample_parameters <-
    lift (get_optimal_parameters (selected_metric rq) metric) ;;
  (* line 158 *)
  pf_outsample <-
    backtest_windows env out_price
      (Rows (fst outsample_parameters) (snd outsample_parameters)) false ;;
  (* lines 161-162 *)
  pf_outsample_optimized <-
    backtest_windows env out_price (parameter_values env) true ;;
  metric <- perform (deep_getattr pf_outsample_optimized (selected_metric rq)) ;;
  optimal_parameters <-
    lift (get_optimal_parameters (selected_metric rq) metric) ;;
  (* lines 165-167 *)
  pickled_portfolio <- perform (dumps pf_outsample) ;;
  perform (cache_set (session_id rq) pickled_portfolio 7200) ;;
  perform (print ("stored session id: " ++ session_id rq)%string) ;;
  (* lines 170-173 *)
  outsample_df <- perform (pf_stats pf_outsample None) ;;
  outsample_df <- perform (pandas (reset_index_drop outsample_df)) ;;
  outsample_df <-
    perform (pandas (rename_columns outsample_df
                       [("Total Return [%]", "Return [%]");
                        ("Total Open Trades", "Open Trades");
                        ("Expectancy", "Expectancy [%]");
                        ("Max Gross Exposure [%]", "Exposure [%]")]%string)) ;;
  (* lines 175-178 *)
  windows <- lift (np_arange 1 (nwindows rq + 1) 1 None) ;;
  window_number <-
    perform (pandas (new_DataFrame [map (cast int16) windows]
                                   (Some ["Window"%string]))) ;;
  params_df <-
    perform (pandas (new_DataFrame
                       [map (cast int16) (fst outsample_parameters);
                        map (cast int16) (snd outsample_parameters)]
                       (Some (columns_list env)))) ;;
  max_drawdown <- perform (pf_metric pf_outsample "max_drawdown") ;;
  outsample_maxdrawdowns <-
    perform (pandas (Series_times_100 max_drawdown
                                      (Some "Max Drawdown [%]"%string))) ;;
  outsample_df <-
    perform (pandas (concat_round
                       [window_number; params_df; outsample_maxdrawdowns;
                        outsample_df] 2)) ;;
  (* lines 180-186 *)
  optimal_params_df <-
    perform (pandas (new_DataFrame
                       [map (cast int16) (fst optimal_parameters);
                        map (cast int16) (snd optimal_parameters)]
                       None)) ;;
  total_return <- perform (pf_metric pf_outsample "total_return") ;;
  outsample_returns <- perform (pandas (Series_times_100 total_return None)) ;;
  stats <- perform (pf_stats pf_outsample_optimized (Some "total_return"%string)) ;;
  optimal_returns <- perform (pandas (groupby_split_idx stats agg_max)) ;;
  stats <- perform (pf_stats pf_outsample_optimized (Some "total_return"%string)) ;;
  average_returns <- perform (pandas (groupby_split_idx stats agg_mean)) ;;
  stats <- perform (pf_stats pf_outsample_optimized
                             (Some "benchmark_return"%string)) ;;
  benchmark_returns <- perform (pandas (groupby_split_idx stats agg_mean)) ;;
  comparison_df <-
    perform (pandas (concat_round
                       [window_number; optimal_params_df; optimal_returns;
                        outsample_returns; average_returns; benchmark_returns]
                       2)) ;;
  comparison_df <-
    perform (pandas (set_columns comparison_df (optimal_columns_list env))) ;;
  (* lines 189-190 *)
  outsample_dates <- lift (py_index out_dates 0) ;;
  outsample_num_days <- perform (num_unique_dates outsample_dates) ;;
  (* lines 192-204 *)
  averages_table <- averages pf_outsample outsample_num_days ;;
  (* lines 214-244 *)
  outsample_table <- create_table comparison_df ;;
  data <- perform (to_dict_records outsample_df) ;;
  columns <- perform (frame_columns outsample_df) ;;
  let insample_table := (data, map (fun i => (i, i)) columns) in
  ret (@mk_report L averages_table insample_table outsample_table false).

(** The callback: lines 63-75 fetch the series and split it into windows;
    [run_windows] is the rest of the body. *)
Definition perform_backtest (data_type : string) (rq : request) : prog report :=
  (* line 63 *)
  start_date <- lift (py_index (dates rq) 0) ;;
  end_date <- lift (py_index (dates rq) 1) ;;
  df <- perform (cached_df (selected_timeframe rq) (selected_asset rq)
                           start_date end_date) ;;
  (* lines 65-70 *)
  let close := select_close data_type df in
  (* lines 73-75 *)
  let set_lens := (inject_Z (insample rq) / 100)%Q in
  window_len <- lift (window_len (Z.of_nat (List.length df)) (nwindows rq)) ;;
  close <- unbound close ;;
  '((in_price, in_dates), (out_price, out_dates)) <-
    perform (rolling_split close (nwindows rq) set_lens window_len) ;;
  (* lines 77-246 *)
  run_windows rq in_price out_price out_dates.

End Orchestrator.

(** ** [plot_windows] (plotting.py, lines 139-142) *)

(** [int(x)] on a float: truncation toward zero. *)
Definition py_int_float (x : Q) : Z := Z.quot (Qnum x) (Z.pos (Qden x)).

(** Line 141: [int((200/insample)*len(df)/nwindows)]. *)
Definition window_length (insample len_df nwindows : Z) : result Z :=
  if insample =? 0 then Raise ZeroDivisionError
  else
    let scaled := ((200 / inject_Z insample) * inject_Z len_df)%Q in
    if nwindows =? 0 then Raise ZeroDivisionError
    else ret (py_int_float (scaled / inject_Z nwindows)).

(** ** Reasoning about the calls of a program *)

Section Reasoning.
Context {L : Library}.

(** A handler whose answers satisfy [R]. *)
Definition respects (R : forall c : call, resp c -> Prop) (h : handler) : Prop :=
  forall c r, h c = Ok r -> R c r.

Definition any_response : forall c : call, resp c -> Prop := fun _ _ => True.

(** [wp R I p t Q]: started after the calls [t], and with answers in [R],
    the program [p] keeps the calls made so far in [I], and [Q] holds of
    its value and of the calls made when it returns. *)
Fixpoint wp {A} (R : forall c : call, resp c -> Prop) (I : list call -> Prop)
  (p : prog A) (t : list call) (Q : A -> list call -> Prop) : Prop :=
  match p with
  | Return a => Q a t
  | Throw _ => True
  | Call c k => I (t ++ [c]) /\ forall r, R c r -> wp R I (k r) (t ++ [c]) Q
  end.

(** Every call the program can make satisfies [P]. *)
Fixpoint calls_satisfy {A} (P : call -> Prop) (p : prog A) : Prop :=
  match p with
  | Return _ | Throw _ => True
  | Call c k => P c /\ forall r, calls_satisfy P (k r)
  end.

(** The threshold arrays submitted to one RSI evaluation: the argument of
    [real_crossed_below] (entries) and of the [real_crossed_above] that
    follows it (exits). *)
Fixpoint submissions (t : list call) : list (item * item) :=
  match t with
  | [] => []
  | real_crossed_below _ (Thresholds entries) :: rest =>
      match rest with
      | real_crossed_above _ (Thresholds exits) :: _ =>
          (entries, exits) :: submissions rest
      | _ => submissions rest
      end
  | _ :: rest => submissions rest
  end.

(** Entry and exit thresholds pair up and each entry is below its exit. *)
Definition entry_below_exit (s : item * item) : Prop :=
  match s with
  | (Array entries, Array exits) => Forall2 Z.lt entries exits
  | (Scalar entry, Scalar exit) => entry < exit
  | _ => False
  end.


End Reasoning.

(** ** Vocabulary for the selection *)

(** The comparison that decides the selection: [beats metric v w] tells that
    the value [v] is preferred to [w]. *)
Definition beats (metric : string) : float_val -> float_val -> bool :=
  if String.eqb metric "max_drawdown" then float_ltb else float_gtb.

(** [(lab, v)] is the first best entry: a number, preferred to every number
    before it, and no number after it is preferred to it. *)
Definition first_best (better : float_val -> float_val -> bool)
  (entries : Series) (choice : label * float_val) : Prop :=
  exists before after,
    entries = before ++ choice :: after /\
    is_nan (snd choice) = false /\
    (forall e, In e before ->
       is_nan (snd e) = true \/ better (snd choice) (snd e) = true) /\
    (forall e, In e after ->
       is_nan (snd e) = true \/ better (snd e) (snd choice) = false).

(** The parameter combination of a column. *)
Definition combination (lab : label) : Z * Z := (first lab, second lab).

(** Grid order: lower first parameter first, then lower second parameter. *)
Definition lex_lt (a b : Z * Z) : Prop :=
  fst a < fst b \/ (fst a = fst b /\ snd a < snd b).

(** The columns of a group come in grid order. *)
Definition grid_ordered (entries : Series) : Prop :=
  StronglySorted lex_lt (map (fun e => combination (fst e)) entries).

(** ** What the callback asks of its collaborators *)

(** The keyword arguments of a simulation, given the request. *)
Definition expected_kwargs (rq : request) (kwargs : pf_kwargs) : Prop :=
  direction kwargs = selected_direction rq /\
  time_interval (selected_timeframe rq) = Ok (freq kwargs) /\
  init_cash kwargs = 100 /\
  fees kwargs = 0%Q /\
  slippage kwargs = 0%Q.

(** The arguments the callback may pass, given its request. *)
Definition expected_call {L : Library} (rq : request) (c : call) : Prop :=
  match c with
  | rolling_split close n set_lens wl =>
      n = nwindows rq /\
      set_lens = (inject_Z (insample rq) / 100)%Q /\
      window_len (Z.of_nat (List.length close)) (nwindows rq) = Ok wl
  | from_signals _ _ _ kwargs => expected_kwargs rq kwargs
  | run talib _ param per_column =>
      if String.eqb (selected_strategy rq) "RSI"
      then talib = "RSI"%string /\ param = Scalar 14 /\ per_column = false
      else per_column = true
  | cache_set key _ timeout => key = session_id rq /\ timeout = 7200
  | _ => True
  end.

(** The keyword arguments of the simulations of a run. *)
Fixpoint simulations {L : Library} (t : list call) : list pf_kwargs :=
  match t with
  | [] => []
  | from_signals _ _ _ kwargs :: rest => kwargs :: simulations rest
  | _ :: rest => simulations rest
  end.

(** The columns of every metric Series are labelled by combinations of
    [grid]. *)
Definition labelled_by {L : Library} (grid : list (Z * Z)) (c : call)
  : resp c -> Prop :=
  match c with
  | deep_getattr _ _ =>
      fun s : Series =>
        Forall (fun e => In (first (fst e), second (fst e)) grid) s
  | _ => fun _ => True
  end.

(** Every [run] computes the RSI with period 14. *)
Definition rsi_period_14 {L : Library} (c : call) : Prop :=
  match c with
  | run talib _ param _ => talib = "RSI"%string /\ param = Scalar 14
  | _ => True
  end.

(** The columns of the metric Series are labelled by the combinations of
    the RSI grid from [lo] to [hi]. *)
Definition rsi_labels {L : Library} (lo hi : Z) (c : call) (r : resp c) : Prop :=
  forall raw,
    closed_arange lo hi 2 (Some int16) = Ok raw ->
    labelled_by (combinations raw) c r.

(** Each RSI evaluation so far had every entry threshold below its exit
    threshold. *)
Definition thresholds_valid {L : Library} (t : list call) : Prop :=
  Forall entry_below_exit (submissions t).

(** ** Vocabulary for the timeframe *)




(** ** Vocabulary for the runs *)

Section Runs.
Context {L : Library}.

(** The answers of the collaborators [h]. *)
Definition answers (h : handler) (c : call) (r : resp c) : Prop := h c = Ok r.

Definition is_split (c : call) : bool :=
  match c with rolling_split _ _ _ _ => true | _ => false end.

Definition is_indicator (c : call) : bool :=
  match c with run_combs _ _ _ | run _ _ _ _ => true | _ => false end.

Definition is_simulation (c : call) : bool :=
  match c with from_signals _ _ _ _ => true | _ => false end.

Definition is_cache_write (c : call) : bool :=
  match c with cache_set _ _ _ => true | _ => false end.

(** The frames the report builds from arrays: the data of each
    [pd.DataFrame(...)] and its column names. *)
Fixpoint frames_built (t : list call)
  : list (list (list Z) * option (list string)) :=
  match t with
  | [] => []
  | pandas (new_DataFrame columns_data columns) :: rest =>
      (columns_data, columns) :: frames_built rest
  | _ :: rest => frames_built rest
  end.

(** The four parts of a run: fetching and splitting the series, the
    indicators and simulations, storing the portfolio, building the report. *)
Definition part (c : call) : nat :=
  match c with
  | cached_df _ _ _ _ | rolling_split _ _ _ _ => 0
  | run_combs _ _ _ | run _ _ _ _ | real_crossed_above _ _
  | real_crossed_below _ _ | from_signals _ _ _ _ | deep_getattr _ _ => 1
  | dumps _ | cache_set _ _ _ | print _ => 2
  | _ => 3
  end.

(** The calls come part by part. *)
Fixpoint in_parts (from : nat) (t : list call) : bool :=
  match t with
  | [] => true
  | c :: rest => (from <=? part c)%nat && in_parts (part c) rest
  end.

(** The concatenations of the report. *)
Definition is_concat (c : call) : bool :=
  match c with pandas (concat_round _ _) => true | _ => false end.

(** How the signals of a simulation were obtained from the collaborators
    [h]: by crossings of a fast and a slow average, or by crossings of the
    RSI with thresholds. *)
Definition crossover_signals (h : handler) (talib : string) (c : call) : Prop :=
  match c with
  | from_signals price entries exits _ =>
      exists fast slow,
        ((exists periods, h (run_combs talib price periods) = Ok (fast, slow)) \/
         (exists fast_periods slow_periods,
            h (run talib price fast_periods true) = Ok fast /\
            h (run talib price slow_periods true) = Ok slow)) /\
        h (real_crossed_above fast (Real slow)) = Ok entries /\
        h (real_crossed_below fast (Real slow)) = Ok exits
  | _ => True
  end.

Definition rsi_signals (h : handler) (c : call) : Prop :=
  match c with
  | from_signals price entries exits _ =>
      exists rsi entry_values exit_values,
        h (run "RSI" price (Scalar 14) false) = Ok rsi /\
        h (real_crossed_below rsi (Thresholds entry_values)) = Ok entries /\
        h (real_crossed_above rsi (Thresholds exit_values)) = Ok exits
  | _ => True
  end.

End Runs.

(** ** Sample data, to run the callback on concrete inputs *)

Definition unit_library : Library :=
  {| Price := unit; DateIndex := unit; Indicator := unit; Signals := unit;
     Portfolio := unit; Frame := unit; Pickle := unit; Cell := unit |}.

(** Collaborators that always succeed: the data source returns [df], every
    portfolio shows the metric [series], the out-of-sample window spans
    [days] days. *)
Definition quiet_handler (df : DataFrame) (series : Series) (days : Z)
  : @handler unit_library :=
  fun c =>
    match c return result (@resp unit_library c) with
    | cached_df _ _ _ _ => Ok df
    | rolling_split _ _ _ _ => Ok ((tt, [tt]), (tt, [tt]))
    | run_combs _ _ _ => Ok (tt, tt)
    | run _ _ _ _ => Ok tt
    | real_crossed_above _ _ => Ok tt
    | real_crossed_below _ _ => Ok tt
    | from_signals _ _ _ _ => Ok tt
    | deep_getattr _ _ => Ok series
    | dumps _ => Ok tt
    | cache_set _ _ _ => Ok tt
    | print _ => Ok tt
    | pf_stats _ _ => Ok tt
    | pf_metric _ _ => Ok tt
    | pandas _ => Ok tt
    | frame_mean _ => Ok (1 # 100)
    | num_unique_dates _ => Ok days
    | frame_columns _ => Ok []
    | frame_values _ => Ok []
    | to_dict_records _ => Ok []
    end.

Definition flat_bar (day : Z) : bar := mk_bar day 100 100 100 100 0.

(** A request as the form sends it. *)
Definition sample_request (strategy timeframe metric : string)
  (range : list Z) : request :=
  {| n_clicks := 1;
     session_id := "3f1c";
     selected_strategy := strategy;
     nwindows := 5;
     insample := 70;
     selected_timeframe := timeframe;
     selected_asset := "SPY";
     dates := ["2022-01-03"; "2023-01-03"]%string;
     selected_direction := "longonly";
     selected_range := range;
     selected_metric := metric |}.

(** A series of [n] bars. *)
Definition sample_df (n : nat) : DataFrame :=
  map (fun i => flat_bar (Z.of_nat i)) (seq 0 n).

(** A metric Series of two windows and three combinations, with a tie in
    each window and a NaN. *)
Definition sample_series : Series :=
  [(mk_label 10 20 0, Fin 1); (mk_label 10 20 1, Fin 5);
   (mk_label 10 30 0, Fin 3); (mk_label 10 30 1, Fin 5);
   (mk_label 20 30 0, Fin 3); (mk_label 20 30 1, NaN)].

(** A metric Series labelled by combinations of the RSI grid 20, 22, ..., 30. *)
Definition rsi_series : Series :=
  [(mk_label 20 22 0, Fin 1); (mk_label 20 24 0, Fin 2);
   (mk_label 22 24 0, Fin 2); (mk_label 20 22 1, NaN);
   (mk_label 20 24 1, Fin (-1)); (mk_label 22 24 1, Fin 0)].


(** ** Collaborators that number their answers *)

(** Every object of the libraries is a number. *)
Definition ledger_library : Library :=
  {| Price := Z; DateIndex := Z; Indicator := Z; Signals := Z;
     Portfolio := Z; Frame := Z; Pickle := Z; Cell := Z |}.

(** The splitter answers the in-sample prices 1 and the out-of-sample prices
    2; an indicator, a signal and a portfolio are numbered after what they
    were computed from; every portfolio shows the metric [series]. *)
Definition ledger_handler (df : DataFrame) (series : Series) (days : Z)
  : @handler ledger_library :=
  fun c =>
    match c return result (@resp ledger_library c) with
    | cached_df _ _ _ _ => Ok df
    | rolling_split _ _ _ _ => Ok ((1, [11]), (2, [12]))
    | run_combs _ price _ => Ok (10 * price + 1, 10 * price + 2)
    | run _ price (Scalar z) _ => Ok (100 * price + z)
    | run _ price (Array values) _ => Ok (100 * price + hd 0 values)
    | real_crossed_above ind _ => Ok (2 * ind)
    | real_crossed_below ind _ => Ok (2 * ind + 1)
    | from_signals price entries _ _ => Ok (10000 * price + entries)
    | deep_getattr _ _ => Ok series
    | dumps pf => Ok (- pf)
    | cache_set _ _ _ => Ok tt
    | print _ => Ok tt
    | pf_stats _ _ => Ok 0
    | pf_metric pf _ => Ok pf
    | pandas _ => Ok 0
    | frame_mean _ => Ok (1 # 100)
    | num_unique_dates _ => Ok days
    | frame_columns _ => Ok []
    | frame_values _ => Ok []
    | to_dict_records _ => Ok []
    end.

(* ================================================================== *)
(** * Properties *)

(** ** Helper facts on results, indexing and casts *)

Lemma cast_fits (d : np_dtype) (z : Z) : fits d z -> cast d z = z.
Proof.
  unfold fits, cast. intros H.
  assert (Hp : 2 ^ bits d = 2 * 2 ^ (bits d - 1)).
  { destruct d; reflexivity. }
  rewrite Z.mod_small; lia.
Qed.

Lemma py_index_last {A} (f : nat -> A) (n : nat) :
  py_index (map f (seq 0 (S n))) (-1) = Ok (f n).
Proof.
  unfold py_index.
  rewrite length_map, length_seq.
  replace (-1 <? 0) with true by reflexivity.
  replace ((0 <=? -1 + Z.of_nat (S n)) && (-1 + Z.of_nat (S n) <? Z.of_nat (S n)))
    with true
    by (symmetry; apply andb_true_intro; split;
        [apply Z.leb_le | apply Z.ltb_lt]; lia).
  replace (Z.to_nat (-1 + Z.of_nat (S n))) with n by lia.
  rewrite nth_error_map, nth_error_seq.
  replace (n <? S n)%nat with true by (symmetry; apply Nat.ltb_lt; lia).
  reflexivity.
Qed.

Lemma py_index_nil {A} (i : Z) : py_index (@nil A) i = Raise IndexError.
Proof.
  unfold py_index. simpl.
  destruct (i <? 0) eqn:Hi.
  - rewrite Z.add_0_r.
    replace (0 <=? i) with false by (symmetry; apply Z.leb_gt, Z.ltb_lt, Hi).
    reflexivity.
  - destruct (0 <=? i); simpl; [|reflexivity].
    replace (i <? 0) with false. reflexivity.
Qed.

Lemma progression_S (start step : Z) (n : nat) :
  progression start step (S n)
  = progression start step n ++ [start + Z.of_nat n * step].
Proof.
  unfold progression. rewrite seq_S, map_app. reflexivity.
Qed.

Lemma progression_length (start step : Z) (n : nat) :
  List.length (progression start step n) = n.
Proof. unfold progression. now rewrite length_map, length_seq. Qed.

Lemma py_index_progression (start step : Z) (n : nat) :
  py_index (progression start step (S n)) (-1) = Ok (start + Z.of_nat n * step).
Proof. unfold progression. apply (py_index_last (fun i => start + Z.of_nat i * step)). Qed.

Lemma ceil_div_pos (a b : Z) :
  0 < b -> ceil_div a b = if a mod b =? 0 then a / b else a / b + 1.
Proof.
  intros Hb. unfold ceil_div.
  destruct (Z.eqb_spec (a mod b) 0) as [H0|H0].
  - rewrite Z.div_opp_l_z by lia. lia.
  - rewrite Z.div_opp_l_nz by lia. lia.
Qed.

Example closed_arange_10_100_10 :
  closed_arange 10 100 10 None = Ok [10; 20; 30; 40; 50; 60; 70; 80; 90; 100].
Proof. vm_compute. reflexivity. Qed.

Example closed_arange_0_10_3 :
  closed_arange 0 10 3 None = Ok [0; 3; 6; 9].
Proof. vm_compute. reflexivity. Qed.

Example closed_arange_neg :
  closed_arange 10 0 (-3) None = Ok [10; 7; 4; 1; 0].
Proof. vm_compute. reflexivity. Qed.

Example closed_arange_empty :
  closed_arange 10 10 2 (Some int16) = Raise IndexError.
Proof. vm_compute. reflexivity. Qed.

(** ** [closed_arange] *)

Lemma np_arange_progression (start stop step : Z) (dtype : option np_dtype) :
  0 < step ->
  fits (dtype_or_default dtype) start ->
  fits (dtype_or_default dtype) stop ->
  np_arange start stop step dtype
  = Ok (progression start step (Z.to_nat (ceil_div (stop - start) step))).
Proof.
  intros Hstep Hlo Hhi. unfold np_arange, progression.
  replace (step =? 0) with false by (symmetry; apply Z.eqb_neq; lia).
  f_equal. apply map_ext_in. intros i Hi. apply in_seq in Hi.
  apply cast_fits.
  rewrite ceil_div_pos in Hi by assumption.
  pose proof (Z.div_mod (stop - start) step ltac:(lia)) as Hdm.
  pose proof (Z.mod_pos_bound (stop - start) step Hstep) as Hm.
  unfold fits in *.
  destruct (Z.eqb_spec ((stop - start) mod step) 0); nia.
Qed.

Lemma closed_arange_closed_form (start stop step : Z) (dtype : option np_dtype) :
  0 < step -> start < stop ->
  fits (dtype_or_default dtype) start ->
  fits (dtype_or_default dtype) (stop + step) ->
  closed_arange start stop step dtype
  = Ok (progression start step (S (Z.to_nat ((stop - start) / step)))).
Proof.
  intros Hstep Hlt Hlo Hhi.
  assert (Hstop : fits (dtype_or_default dtype) stop) by (unfold fits in *; lia).
  unfold closed_arange. cbn [bind Monad_result result_bind].
  rewrite np_arange_progression by assumption.
  rewrite ceil_div_pos by assumption.
  pose proof (Z.div_mod (stop - start) step ltac:(lia)) as Hdm.
  pose proof (Z.mod_pos_bound (stop - start) step Hstep) as Hm.
  assert (Hq : 0 <= (stop - start) / step) by (apply Z.div_pos; lia).
  set (q := (stop - start) / step) in *.
  set (r := (stop - start) mod step) in *.
  destruct (Z.eqb_spec r 0) as [Hr|Hr].
  - (* stop is a term of the progression *)
    assert (Hq1 : 1 <= q) by nia.
    replace (Z.to_nat q) with (S (Z.to_nat (q - 1))) at 1 by lia.
    cbn [result_bind]. rewrite py_index_progression. cbn [result_bind].
    replace (start + Z.of_nat (Z.to_nat (q - 1)) * step + step) with stop by nia.
    rewrite !cast_fits by assumption.
    rewrite Z.leb_refl. cbn [ret Monad_result].
    rewrite (progression_S start step (Z.to_nat q)).
    replace (Z.to_nat q) with (S (Z.to_nat (q - 1))) at 1 by lia.
    do 3 f_equal. nia.
  - (* stop lies strictly between two terms *)
    replace (Z.to_nat (q + 1)) with (S (Z.to_nat q)) by lia.
    cbn [result_bind]. rewrite py_index_progression. cbn [result_bind].
    rewrite cast_fits by (unfold fits in *; nia).
    replace (start + Z.of_nat (Z.to_nat q) * step + step <=? stop) with false
      by (symmetry; apply Z.leb_gt; nia).
    reflexivity.
Qed.

Lemma progression_last (start step : Z) (n : nat) :
  last (progression start step (S n)) start = start + Z.of_nat n * step.
Proof. rewrite progression_S. apply last_last. Qed.

(** C1, as stated, fails: [closed_arange(0, 10, 3)] is [[0, 3, 6, 9]]; its
    final element is 9 and 10 is not appended, because 9 + 3 <= 10 is false. *)
Lemma closed_arange_0_10_3_not_closed :
  0 < 10 /\ 0 < 3 /\
  closed_arange 0 10 3 None = Ok [0; 3; 6; 9] /\
  ~ ends_at_stop 0 10 3 None.
Proof.
  repeat split; try lia.
  intros [l [Hl Hlast]].
  vm_compute in Hl. injection Hl as <-. discriminate Hlast.
Qed.

(** C1 (amended): for [start < stop] and [step > 0] within the dtype's range,
    [closed_arange] returns exactly the terms [start + i * step] that lie in
    the closed interval from [start] to [stop]: an increasing arithmetic
    sequence starting at [start] whose final element is
    [stop - (stop - start) mod step]; it equals [stop] precisely when [stop]
    is reachable as [start + k * step], and then [stop] occurs once. *)
Theorem closed_arange_closed_interval
  (start stop step : Z) (dtype : option np_dtype) :
  0 < step -> start < stop ->
  fits (dtype_or_default dtype) start ->
  fits (dtype_or_default dtype) (stop + step) ->
  let n := Z.to_nat ((stop - start) / step) in
  closed_arange start stop step dtype = Ok (progression start step (S n)) /\
  hd_error (progression start step (S n)) = Some start /\
  last (progression start step (S n)) start = stop - (stop - start) mod step /\
  (last (progression start step (S n)) start = stop
   <-> (stop - start) mod step = 0) /\
  (count_occ Z.eq_dec (progression start step (S n)) stop <= 1)%nat.
Proof.
  intros Hstep Hlt Hlo Hhi n.
  pose proof (Z.div_mod (stop - start) step ltac:(lia)) as Hdm.
  pose proof (Z.mod_pos_bound (stop - start) step Hstep) as Hm.
  assert (Hq : 0 <= (stop - start) / step) by (apply Z.div_pos; lia).
  assert (Hlast : last (progression start step (S n)) start
                  = stop - (stop - start) mod step).
  { rewrite progression_last. unfold n. rewrite Z2Nat.id by assumption. lia. }
  split; [now apply closed_arange_closed_form|].
  split; [unfold progression; simpl; f_equal; lia|].
  split; [exact Hlast|].
  split; [rewrite Hlast; lia|].
  (* the terms are pairwise distinct, so [stop] occurs at most once *)
  assert (Hnd : NoDup (progression start step (S n))).
  { unfold progression. apply Injective_map_NoDup_in.
    - intros i j _ _ Hij. nia.
    - apply seq_NoDup. }
  rewrite (NoDup_count_occ Z.eq_dec) in Hnd. apply Hnd.
Qed.

Lemma closed_arange_closed_interval_witness :
  closed_arange 10 100 10 (Some int16)
  = Ok (progression 10 10 (S (Z.to_nat ((100 - 10) / 10)))) /\
  closed_arange 10 100 10 (Some int16)
  = Ok [10; 20; 30; 40; 50; 60; 70; 80; 90; 100].
Proof.
  split.
  - apply (closed_arange_closed_interval 10 100 10 (Some int16));
      unfold fits; simpl; lia.
  - reflexivity.
Defined.

Lemma ceil_div_nonpos (a b : Z) :
  b <> 0 ->
  (ceil_div a b <= 0 <-> (0 < b /\ a <= 0) \/ (b < 0 /\ 0 <= a)).
Proof.
  intros Hb. unfold ceil_div.
  pose proof (Z.div_mod (- a) b Hb) as Hdm.
  destruct (Z_lt_le_dec 0 b) as [Hpos|Hneg].
  - pose proof (Z.mod_pos_bound (- a) b Hpos) as Hm.
    split; intros H; [left|]; nia.
  - assert (Hb' : b < 0) by lia.
    pose proof (Z.mod_neg_bound (- a) b Hb') as Hm.
    split; intros H; [right|]; nia.
Qed.

(** C9, as stated, fails: with a negative step and [start > stop] the
    half-open range is not empty and no fault occurs. *)
Lemma closed_arange_descending_no_fault :
  10 >= 0 /\ closed_arange 10 0 (-3) None = Ok [10; 7; 4; 1; 0].
Proof. split; [lia | vm_compute; reflexivity]. Qed.

(** C9 (amended): [closed_arange] faults with an IndexError on [array[-1]]
    exactly when the half-open range is empty, that is, when [start >= stop]
    with a positive step or [start <= stop] with a negative step; in
    particular it faults for every [start >= stop] with [step > 0], and the
    fault is unreachable when [start < stop] with [step > 0]. *)
Theorem closed_arange_index_error
  (start stop step : Z) (dtype : option np_dtype) :
  closed_arange start stop step dtype = Raise IndexError
  <-> (0 < step /\ stop <= start) \/ (step < 0 /\ start <= stop).
Proof.
  unfold closed_arange, np_arange. cbn [bind Monad_result result_bind].
  destruct (Z.eqb_spec step 0) as [H0|H0].
  - split; [discriminate | lia].
  - cbn [result_bind].
    pose proof (ceil_div_nonpos (stop - start) step H0) as Hc.
    destruct (Z_le_gt_dec (ceil_div (stop - start) step) 0) as [Hle|Hgt].
    + replace (Z.to_nat (ceil_div (stop - start) step)) with 0%nat by lia.
      cbn [seq map]. rewrite py_index_nil. cbn [result_bind].
      split; [intros _; apply Hc in Hle; lia | reflexivity].
    + destruct (Z.to_nat (ceil_div (stop - start) step)) as [|n] eqn:Hn; [lia|].
      rewrite py_index_last. cbn [result_bind].
      split.
      * destruct (_ <=? _); discriminate.
      * intros H. assert (ceil_div (stop - start) step <= 0) by (apply Hc; lia). lia.
Qed.

(** ** [overlap_factor] *)

Lemma atan_pos (x : R) : (0 < x -> 0 < atan x)%R.
Proof. intros Hx. rewrite <- atan_0. now apply atan_increasing. Qed.

(** [atan x < x] for positive [x], by the mean value theorem. *)
Lemma atan_lt_id (x : R) : (0 < x -> atan x < x)%R.
Proof.
  intros Hx.
  destruct (MVT_cor2 atan (fun c => / (1 + c ^ 2))%R 0 x Hx
              (fun c _ => derivable_pt_lim_atan c)) as [c [Hc [Hc0 Hcx]]].
  rewrite atan_0 in Hc.
  assert (Hden : (1 < 1 + c ^ 2)%R) by nra.
  assert (Hinv : (/ (1 + c ^ 2) < 1)%R).
  { rewrite <- Rinv_1 at 2. apply Rinv_lt_contravar; lra. }
  nra.
Qed.

Lemma PI_gt_3 : (3 < PI)%R.
Proof. pose proof PI2_3_2. lra. Qed.

(** The closed-form branch written with the complementary angle. *)
Lemma closed_form_complement (x : R) :
  (0 < x ->
   13 / (9 * PI) * atan x = 13 / 18 - 13 / (9 * PI) * atan (/ x))%R.
Proof.
  intros Hx. rewrite atan_inv by assumption.
  pose proof PI_gt_3. field. lra.
Qed.

Lemma closed_form_upper (x : R) : (0 < x -> 13 / (9 * PI) * atan x < 13 / 18)%R.
Proof.
  intros Hx. rewrite closed_form_complement by assumption.
  pose proof PI_gt_3 as Hpi.
  assert (Hinv : (0 < / x)%R) by now apply Rinv_0_lt_compat.
  pose proof (atan_pos _ Hinv) as Ha.
  assert (Hc : (0 < 13 / (9 * PI))%R).
  { apply Rdiv_lt_0_compat; lra. }
  nra.
Qed.

Lemma closed_form_lower (x : R) :
  (0 < x -> 13 / 18 - 13 / 27 * / x < 13 / (9 * PI) * atan x)%R.
Proof.
  intros Hx. rewrite closed_form_complement by assumption.
  pose proof PI_gt_3 as Hpi.
  assert (Hinv : (0 < / x)%R) by now apply Rinv_0_lt_compat.
  pose proof (atan_lt_id _ Hinv) as Ha.
  pose proof (atan_pos _ Hinv) as Ha0.
  assert (Hc : (0 < 13 / (9 * PI) < 13 / 27)%R).
  { split.
    - apply Rdiv_lt_0_compat; lra.
    - apply (Rmult_lt_reg_r (9 * PI)); [lra|].
      unfold Rdiv. rewrite Rmult_assoc, Rinv_l by lra. lra. }
  nra.
Qed.

(** C3, as stated, fails: at N = 8 the closed form already exceeds the
    table's last value 0.64. *)
Lemma overlap_factor_8_above_table :
  exists v, overlap_factor 8 = Ok v /\ (0.64 < v)%R /\ ~ (v < 0.64)%R.
Proof.
  eexists. split; [reflexivity|].
  pose proof (closed_form_lower 8 ltac:(lra)) as H.
  split; [|apply Rle_not_lt, Rlt_le]; lra.
Qed.

(** C3 (amended): [overlap_factor] returns the table values 0.375, 0.5,
    0.56, 0.6, 0.625, 0.64 for N = 2..7 and (13/(9 pi)) * atan(N) for every
    N >= 8; for N >= 8 that value lies strictly between 0.64 and 13/18: it is
    above the table's ceiling, and it approaches 13/18 without reaching it. *)
Theorem overlap_factor_cases :
  (overlap_factor 2 = Ok 0.375%R /\ overlap_factor 3 = Ok 0.5%R /\
   overlap_factor 4 = Ok 0.56%R /\ overlap_factor 5 = Ok 0.6%R /\
   overlap_factor 6 = Ok 0.625%R /\ overlap_factor 7 = Ok 0.64%R) /\
  (forall N : Z, 8 <= N ->
     overlap_factor N = Ok (13 / (9 * PI) * atan (IZR N))%R /\
     (0.64 < 13 / (9 * PI) * atan (IZR N) < 13 / 18)%R) /\
  (forall eps : R, (0 < eps)%R ->
     exists N0 : Z, forall M : Z, N0 <= M ->
       exists v, overlap_factor M = Ok v /\ (13 / 18 - eps < v < 13 / 18)%R).
Proof.
  assert (Hclosed : forall N : Z, 8 <= N ->
            overlap_factor N = Ok (13 / (9 * PI) * atan (IZR N))%R).
  { intros N HN. unfold overlap_factor.
    replace (N <? 8) with false by (symmetry; apply Z.ltb_ge; lia).
    reflexivity. }
  split; [repeat split; reflexivity|].
  split.
  { intros N HN. split; [now apply Hclosed|].
    assert (H8 : (8 <= IZR N)%R) by (apply IZR_le in HN; exact HN).
    split; [|apply closed_form_upper; lra].
    pose proof (closed_form_lower (IZR N) ltac:(lra)) as Hlow.
    assert (Hinv : (/ IZR N <= / 8)%R) by (apply Rinv_le_contravar; lra).
    lra. }
  intros eps Heps.
  (* any N0 beyond 8 and 1/eps works *)
  exists (Z.max 8 (up (/ eps))). intros M HM.
  assert (HM8 : 8 <= M) by lia.
  assert (HMup : up (/ eps) <= M) by lia.
  exists (13 / (9 * PI) * atan (IZR M))%R.
  split; [now apply Hclosed|].
  assert (HMr : (8 <= IZR M)%R) by (apply IZR_le in HM8; exact HM8).
  split; [|apply closed_form_upper; lra].
  pose proof (closed_form_lower (IZR M) ltac:(lra)) as Hlow.
  destruct (archimed (/ eps)) as [Hup _].
  apply IZR_le in HMup.
  assert (Hie : (0 < / eps)%R) by now apply Rinv_0_lt_compat.
  assert (Hlt : (/ IZR M < eps)%R).
  { rewrite <- (Rinv_inv eps). apply Rinv_lt_contravar; [nra | lra]. }
  assert (Hpos : (0 < / IZR M)%R) by (apply Rinv_0_lt_compat; lra).
  lra.
Qed.

(** ** [get_optimal_parameters] *)

Lemma float_ltb_lt (x y : Q) : float_ltb (Fin x) (Fin y) = true <-> (x < y)%Q.
Proof.
  simpl. rewrite Qlt_alt. destruct (x ?= y)%Q; split; congruence.
Qed.

Lemma float_ltb_trans (a b c : float_val) :
  float_ltb a b = true -> float_ltb b c = true -> float_ltb a c = true.
Proof.
  destruct a as [| |x|], b as [| |y|], c as [| |z|];
    try discriminate; try reflexivity.
  rewrite !float_ltb_lt. apply Qlt_trans.
Qed.

Lemma float_ltb_left (a b c : float_val) :
  is_nan c = false ->
  float_ltb a b = true -> float_ltb c b = false -> float_ltb a c = true.
Proof.
  destruct a as [| |x|], b as [| |y|], c as [| |z|];
    try discriminate; try reflexivity.
  intros _ Hab Hcb. apply float_ltb_lt in Hab. apply float_ltb_lt.
  apply Qlt_le_trans with y; [assumption|].
  apply Qnot_lt_le. intros H. apply float_ltb_lt in H. congruence.
Qed.

Lemma float_ltb_right (a b c : float_val) :
  is_nan c = false ->
  float_ltb b a = true -> float_ltb b c = false -> float_ltb c a = true.
Proof.
  destruct a as [| |x|], b as [| |y|], c as [| |z|];
    try discriminate; try reflexivity.
  intros _ Hba Hbc. apply float_ltb_lt in Hba. apply float_ltb_lt.
  apply Qle_lt_trans with y; [|assumption].
  apply Qnot_lt_le. intros H. apply float_ltb_lt in H. congruence.
Qed.

Section FirstBest.
Variable better : float_val -> float_val -> bool.
Hypothesis better_trans : forall a b c,
  better a b = true -> better b c = true -> better a c = true.
Hypothesis better_weak : forall a b c,
  is_nan c = false ->
  better a b = true -> better c b = false -> better a c = true.

Lemma first_best_skip (pre : Series) (b e : label * float_val) :
  first_best better pre b ->
  is_nan (snd e) = true \/ better (snd e) (snd b) = false ->
  first_best better (pre ++ [e]) b.
Proof.
  intros (before & after & -> & Hnum & Hbefore & Hafter) He.
  exists before, (after ++ [e]). repeat split; try assumption.
  - now rewrite <- app_assoc.
  - intros e' [Hin | [<- | []]]%in_app_or; auto.
Qed.

Lemma first_best_take (pre : Series) (b e : label * float_val) :
  first_best better pre b ->
  is_nan (snd e) = false -> better (snd e) (snd b) = true ->
  first_best better (pre ++ [e]) e.
Proof.
  intros (before & after & -> & Hnum & Hbefore & Hafter) He Hbeats.
  exists (before ++ b :: after), []. repeat split; try assumption.
  - intros e' [Hin | [<- | Hin]]%in_app_or.
    + destruct (Hbefore e' Hin) as [H | H]; [now left | right].
      now apply better_trans with (snd b).
    + now right.
    + destruct (is_nan (snd e')) eqn:Hn; [now left | right].
      destruct (Hafter e' Hin) as [H | H]; [congruence|].
      now apply better_weak with (snd b).
  - intros e' [].
Qed.

Lemma idx_best_some (entries pre : Series) (b : label * float_val) :
  first_best better pre b ->
  exists r, idx_best better entries (Some b) = Some r /\
            first_best better (pre ++ entries) r.
Proof.
  revert pre b. induction entries as [|[lab v] rest IH]; intros pre [lab0 w] Hb.
  - exists (lab0, w). rewrite app_nil_r. now split.
  - replace (pre ++ (lab, v) :: rest) with ((pre ++ [(lab, v)]) ++ rest)
      by now rewrite <- app_assoc.
    cbn [idx_best]. destruct (is_nan v) eqn:Hn.
    + apply IH. apply first_best_skip; [assumption | now left].
    + destruct (better v w) eqn:Hvw.
      * apply IH. now apply first_best_take with (lab0, w).
      * apply IH. apply first_best_skip; [assumption | now right].
Qed.

Lemma idx_best_none (entries pre : Series) :
  (forall e, In e pre -> is_nan (snd e) = true) ->
  match idx_best better entries None with
  | Some r => first_best better (pre ++ entries) r
  | None => forall e, In e entries -> is_nan (snd e) = true
  end.
Proof.
  revert pre. induction entries as [|[lab v] rest IH]; intros pre Hpre.
  - intros e [].
  - cbn [idx_best]. destruct (is_nan v) eqn:Hn.
    + specialize (IH (pre ++ [(lab, v)])).
      rewrite <- app_assoc in IH. cbn [app] in IH.
      assert (Hpre' : forall e, In e (pre ++ [(lab, v)]) -> is_nan (snd e) = true).
      { intros e [Hin | [<- | []]]%in_app_or; auto. }
      specialize (IH Hpre').
      destruct (idx_best better rest None); [assumption|].
      intros e [<- | Hin]; auto.
    + assert (Hfirst : first_best better (pre ++ [(lab, v)]) (lab, v)).
      { exists pre, []. repeat split; auto; intros e []. }
      destruct (idx_best_some rest _ _ Hfirst) as (r & -> & Hr).
      now rewrite <- app_assoc in Hr.
Qed.

(** A group that holds a number has a first best entry, and [idx_best]
    finds it. *)
Lemma idx_best_first_best (entries : Series) :
  (exists e, In e entries /\ is_nan (snd e) = false) ->
  exists r, idx_best better entries None = Some r /\ first_best better entries r.
Proof.
  intros (e & Hin & Hnum).
  pose proof (idx_best_none entries [] ltac:(intros ? [])) as H.
  destruct (idx_best better entries None) as [r|].
  - now exists r.
  - rewrite (H e Hin) in Hnum. discriminate.
Qed.

Lemma groupby_idx_first_best (s : Series) (keys : list Z) :
  (forall w, In w keys -> exists e, In e (group s w) /\ is_nan (snd e) = false) ->
  exists labels,
    groupby_idx better s keys = Ok labels /\
    Forall2 (fun w lab => exists v, first_best better (group s w) (lab, v))
            keys labels.
Proof.
  induction keys as [|k rest IH]; intros Hnum.
  - exists []. split; [reflexivity | constructor].
  - destruct IH as (labels & Hlabels & Hall).
    { intros w Hw. apply Hnum. now right. }
    destruct (idx_best_first_best (group s k) (Hnum k (or_introl eq_refl)))
      as ([lab v] & Hidx & Hfirst).
    exists (lab :: labels). split.
    + cbn [groupby_idx]. rewrite Hidx, Hlabels. reflexivity.
    + constructor; [now exists v | assumption].
Qed.

End FirstBest.

Lemma insert_key_in (k w : Z) (keys : list Z) :
  In w (insert_key k keys) <-> w = k \/ In w keys.
Proof.
  induction keys as [|k' rest IH]; cbn [insert_key].
  - simpl. intuition.
  - destruct (Z.ltb_spec k k').
    + simpl. intuition.
    + destruct (Z.eqb_spec k k') as [->|Hne].
      * simpl. intuition.
      * simpl. rewrite IH. intuition.
Qed.

Lemma insert_key_sorted (k : Z) (keys : list Z) :
  Sorted Z.lt keys -> Sorted Z.lt (insert_key k keys).
Proof.
  induction keys as [|k' rest IH]; intros Hs; cbn [insert_key].
  - repeat constructor.
  - destruct (Z.ltb_spec k k').
    + constructor; [assumption | now constructor].
    + destruct (Z.eqb_spec k k') as [->|Hne]; [assumption|].
      inversion Hs as [|? ? Hrest Hhd]; subst.
      constructor; [now apply IH|].
      destruct rest as [|k'' rest']; cbn [insert_key].
      * constructor. lia.
      * inversion Hhd; subst.
        destruct (Z.ltb_spec k k''); [constructor; lia|].
        destruct (Z.eqb_spec k k''); constructor; lia.
Qed.

Lemma group_keys_in (s : Series) (w : Z) :
  In w (group_keys s) <-> exists e, In e s /\ split_idx (fst e) = w.
Proof.
  induction s as [|e rest IH]; cbn [group_keys fold_right].
  - split; [intros [] | intros (? & [] & _)].
  - fold (group_keys rest). rewrite insert_key_in, IH. split.
    + intros [-> | (e' & Hin & Hw)]; [exists e | exists e']; simpl; auto.
    + intros (e' & [<- | Hin] & Hw); [left; now symmetry | right; now exists e'].
Qed.

Lemma group_keys_sorted (s : Series) : Sorted Z.lt (group_keys s).
Proof.
  induction s as [|e rest IH]; cbn [group_keys fold_right].
  - constructor.
  - now apply insert_key_sorted.
Qed.

Lemma label_eqb_eq (a b : label) : label_eqb a b = true <-> a = b.
Proof.
  destruct a as [a1 a2 a3], b as [b1 b2 b3]. unfold label_eqb. cbn.
  rewrite !andb_true_iff, !Z.eqb_eq. split.
  - intros [[-> ->] ->]. reflexivity.
  - intros [= -> -> ->]. auto.
Qed.

Lemma filter_absent_label (s : Series) (lab : label) :
  ~ In lab (map fst s) ->
  filter (fun e => label_eqb (fst e) lab) s = [].
Proof.
  intros Hnotin.
  induction s as [|[lab' v'] rest IH]; [reflexivity|].
  cbn [filter fst]. destruct (label_eqb lab' lab) eqn:Heq.
  - apply label_eqb_eq in Heq. subst. exfalso. apply Hnotin. now left.
  - apply IH. intros Hin. apply Hnotin. now right.
Qed.

Lemma series_loc_unique (s : Series) (lab : label) (v : float_val) :
  NoDup (map fst s) -> In (lab, v) s ->
  filter (fun e => label_eqb (fst e) lab) s = [(lab, v)].
Proof.
  induction s as [|[lab' v'] rest IH]; intros Hnd Hin; [destruct Hin|].
  cbn [map fst] in Hnd. inversion Hnd as [|? ? Hnotin Hnd']; subst.
  cbn [filter fst]. destruct Hin as [[= -> ->] | Hin].
  - rewrite (proj2 (label_eqb_eq lab lab) eq_refl). f_equal.
    now apply filter_absent_label.
  - destruct (label_eqb lab' lab) eqn:Heq.
    + apply label_eqb_eq in Heq. subst lab'.
      exfalso. apply Hnotin. apply (in_map fst) in Hin. exact Hin.
    + now apply IH.
Qed.

Lemma series_loc_labels (s : Series) (labels : list label) :
  NoDup (map fst s) ->
  Forall (fun lab => In lab (map fst s)) labels ->
  map fst (series_loc s labels) = labels.
Proof.
  intros Hnd. induction 1 as [|lab rest Hlab _ IH]; [reflexivity|].
  unfold series_loc in *. cbn [flat_map]. rewrite map_app, IH.
  apply in_map_iff in Hlab as ([lab' v] & Heq & Hin). cbn in Heq. subst lab'.
  now rewrite (series_loc_unique s lab v Hnd Hin).
Qed.

Lemma first_best_in (better : float_val -> float_val -> bool)
  (s : Series) (w : Z) (choice : label * float_val) :
  first_best better (group s w) choice ->
  In choice s /\ split_idx (fst choice) = w.
Proof.
  intros (before & after & Heq & _).
  assert (Hin : In choice (group s w)).
  { rewrite Heq. apply in_or_app. right. now left. }
  unfold group in Hin. apply filter_In in Hin as [Hin Hw].
  split; [assumption | now apply Z.eqb_eq].
Qed.

Lemma Forall2_right {A B} (R : A -> B -> Prop) (P : B -> Prop)
  (l1 : list A) (l2 : list B) :
  (forall a b, R a b -> P b) -> Forall2 R l1 l2 -> Forall P l2.
Proof. intros HRP. induction 1; constructor; eauto. Qed.

Lemma float_gtb_trans (a b c : float_val) :
  float_gtb a b = true -> float_gtb b c = true -> float_gtb a c = true.
Proof. unfold float_gtb. intros Hab Hbc. now apply float_ltb_trans with b. Qed.

Lemma float_gtb_weak (a b c : float_val) :
  is_nan c = false ->
  float_gtb a b = true -> float_gtb c b = false -> float_gtb a c = true.
Proof. unfold float_gtb. intros Hc Hab Hcb. now apply float_ltb_right with b. Qed.

Lemma beats_trans (metric : string) (a b c : float_val) :
  beats metric a b = true -> beats metric b c = true -> beats metric a c = true.
Proof.
  unfold beats. destruct (String.eqb metric "max_drawdown");
    [apply float_ltb_trans | apply float_gtb_trans].
Qed.

Lemma beats_weak (metric : string) (a b c : float_val) :
  is_nan c = false ->
  beats metric a b = true -> beats metric c b = false -> beats metric a c = true.
Proof.
  unfold beats. destruct (String.eqb metric "max_drawdown");
    [apply float_ltb_left | apply float_gtb_weak].
Qed.

(** Among the entries of a group in grid order, every number as good as the
    first best one comes later in grid order. *)
Lemma first_best_lowest (better : float_val -> float_val -> bool)
  (entries : Series) (choice e : label * float_val) :
  first_best better entries choice ->
  grid_ordered entries ->
  In e entries -> is_nan (snd e) = false ->
  better (snd choice) (snd e) = false ->
  e = choice \/ lex_lt (combination (fst choice)) (combination (fst e)).
Proof.
  intros (before & after & -> & _ & Hbefore & _) Hsorted Hin Hnum Htie.
  apply in_app_or in Hin as [Hin | [<- | Hin]].
  - destruct (Hbefore e Hin); congruence.
  - now left.
  - right. unfold grid_ordered in Hsorted. rewrite map_app in Hsorted.
    clear - Hsorted Hin. induction before as [|x before IH]; cbn [app map] in Hsorted.
    + inversion Hsorted as [|? ? _ Hall]; subst.
      rewrite Forall_forall in Hall. apply Hall.
      apply in_map_iff. now exists e.
    + inversion Hsorted; subst. now apply IH.
Qed.

(** C4: for every metric Series with distinct column labels in which every
    window holds a number, [get_optimal_parameters] returns, window by
    window in ascending order, the parameters of the first best column of
    that window: the one with the minimum value when the metric is
    'max_drawdown', with the maximum value for every other metric, and, among
    equal values, the first in column order; when the columns of the window
    come in grid order, that is the combination with the lowest parameter
    values among the best ones. *)
Theorem get_optimal_parameters_first_best (metric : string) (s : Series) :
  NoDup (map fst s) ->
  (forall w, In w (group_keys s) ->
     exists e, In e (group s w) /\ is_nan (snd e) = false) ->
  exists labels,
    get_optimal_parameters metric s = Ok (map first labels, map second labels) /\
    Forall2 (fun w lab =>
               split_idx lab = w /\
               exists v,
                 first_best (beats metric) (group s w) (lab, v) /\
                 (grid_ordered (group s w) ->
                  forall e, In e (group s w) -> is_nan (snd e) = false ->
                            beats metric v (snd e) = false ->
                            e = (lab, v) \/
                            lex_lt (combination lab) (combination (fst e))))
            (group_keys s) labels /\
    Sorted Z.lt (group_keys s) /\
    (forall w, In w (group_keys s) <->
       exists e, In e s /\ split_idx (fst e) = w) /\
    (metric = "max_drawdown"%string -> beats metric = float_ltb) /\
    (metric <> "max_drawdown"%string -> beats metric = float_gtb).
Proof.
  intros Hnd Hnum.
  destruct (groupby_idx_first_best (beats metric) (beats_trans metric)
              (beats_weak metric) s (group_keys s) Hnum)
    as (labels & Hidx & Hall).
  exists labels.
  assert (Hin : Forall (fun lab => In lab (map fst s)) labels).
  { eapply Forall2_right; [|exact Hall]. cbn. intros w lab (v & Hv).
    destruct (first_best_in _ _ _ _ Hv) as [Hin _].
    apply (in_map fst) in Hin. exact Hin. }
  repeat split.
  - unfold get_optimal_parameters, beats in *.
    destruct (String.eqb metric "max_drawdown"); rewrite Hidx;
      cbn [bind Monad_result result_bind ret];
      now rewrite series_loc_labels.
  - eapply Forall2_impl; [|exact Hall]. cbn. intros w lab (v & Hv).
    split; [now destruct (first_best_in _ _ _ _ Hv)|].
    exists v. split; [assumption|].
    intros Hsorted e He Hnume Htie.
    now apply (first_best_lowest _ _ (lab, v) e Hv Hsorted He Hnume Htie).
  - apply group_keys_sorted.
  - apply group_keys_in.
  - apply group_keys_in.
  - intros ->. reflexivity.
  - intros Hne. unfold beats.
    destruct (String.eqb_spec metric "max_drawdown"); [contradiction | reflexivity].
Qed.

Example sample_selection :
  get_optimal_parameters "total_return" sample_series = Ok ([10; 10], [30; 20]) /\
  get_optimal_parameters "max_drawdown" sample_series = Ok ([10; 10], [20; 20]).
Proof. split; reflexivity. Qed.

Lemma get_optimal_parameters_first_best_witness :
  NoDup (map fst sample_series) /\
  (forall w, In w (group_keys sample_series) ->
     exists e, In e (group sample_series w) /\ is_nan (snd e) = false) /\
  exists labels,
    get_optimal_parameters "total_return" sample_series
    = Ok (map first labels, map second labels) /\
    Forall2 (fun w lab =>
               split_idx lab = w /\
               exists v, first_best (beats "total_return")
                                    (group sample_series w) (lab, v))
            (group_keys sample_series) labels /\
    labels = [mk_label 10 30 0; mk_label 10 20 1].
Proof.
  assert (Hnd : NoDup (map fst sample_series)).
  { repeat constructor; simpl; intuition discriminate. }
  assert (Hnum : forall w, In w (group_keys sample_series) ->
            exists e, In e (group sample_series w) /\ is_nan (snd e) = false).
  { intros w [<- | [<- | []]]; eexists; (split; [left; reflexivity | reflexivity]). }
  split; [exact Hnd|]. split; [exact Hnum|].
  destruct (get_optimal_parameters_first_best "total_return" sample_series Hnd Hnum)
    as (labels & Hsel & Hall & _).
  exists labels. split; [assumption|]. split.
  - eapply Forall2_impl; [|exact Hall]. cbn beta.
    intros w lab (Hw & v & Hv & _). split; [assumption | now exists v].
  - inversion Hall as [|w0 lab0 ws labs0 (Hw0 & ? & Hb0 & _) Hrest]; subst.
    inversion Hrest as [|w1 lab1 ws1 labs1 (Hw1 & ? & Hb1 & _) Hnil]; subst.
    inversion Hnil; subst.
    cbn in Hsel. destruct lab0, lab1. cbn in *. congruence.
Defined.

(** ** Programs and their calls *)

Section ProgramFacts.
Context {L : Library}.

Lemma exec_bind {A B} (h : handler) (p : prog A) (f : A -> prog B) :
  exec h (prog_bind p f)
  = match exec h p with
    | (t, Ok a) => (t ++ fst (exec h (f a)), snd (exec h (f a)))
    | (t, Raise e) => (t, Raise e)
    end.
Proof.
  induction p as [a|e|c k IH]; cbn [prog_bind exec].
  - now destruct (exec h (f a)).
  - reflexivity.
  - destruct (h c) as [r|e]; [|reflexivity].
    rewrite IH. destruct (exec h (k r)) as [t [a|e]]; [|reflexivity].
    now destruct (exec h (f a)).
Qed.

Lemma calls_satisfy_bind {A B} (P : call -> Prop) (p : prog A) (f : A -> prog B) :
  calls_satisfy P p -> (forall a, calls_satisfy P (f a)) ->
  calls_satisfy P (prog_bind p f).
Proof.
  intros Hp Hf. induction p as [a|e|c k IH]; cbn [prog_bind calls_satisfy] in *.
  - apply Hf.
  - exact I.
  - destruct Hp as [Hc Hk]. split; [assumption|]. intros r. now apply IH.
Qed.

Lemma calls_satisfy_lift {A B} (P : call -> Prop) (r : result A) (f : A -> prog B) :
  (forall a, r = Ok a -> calls_satisfy P (f a)) ->
  calls_satisfy P (prog_bind (lift r) f).
Proof. destruct r as [a|e]; cbn; auto. Qed.

Lemma calls_satisfy_unbound {A B} (P : call -> Prop) (name : option A)
  (f : A -> prog B) :
  (forall a, name = Some a -> calls_satisfy P (f a)) ->
  calls_satisfy P (prog_bind (unbound name) f).
Proof. destruct name as [a|]; cbn; auto. Qed.

Lemma calls_satisfy_perform {B} (P : call -> Prop) (c : call)
  (f : resp c -> prog B) :
  P c -> (forall r, calls_satisfy P (f r)) ->
  calls_satisfy P (prog_bind (perform c) f).
Proof. intros Hc Hf. cbn. split; [assumption | exact Hf]. Qed.

Lemma calls_satisfy_trace {A} (P : call -> Prop) (h : handler) (p : prog A) :
  calls_satisfy P p -> Forall P (trace h p).
Proof.
  unfold trace. induction p as [a|e|c k IH]; cbn [exec calls_satisfy].
  - constructor.
  - constructor.
  - intros [Hc Hk]. destruct (h c) as [r|e].
    + specialize (IH r (Hk r)). destruct (exec h (k r)). now constructor.
    + now repeat constructor.
Qed.

Lemma calls_satisfy_impl {A} (P Q : call -> Prop) (p : prog A) :
  (forall c, P c -> Q c) -> calls_satisfy P p -> calls_satisfy Q p.
Proof.
  intros HPQ. induction p as [a|e|c k IH]; cbn [calls_satisfy]; auto.
  intros [Hc Hk]. split; auto.
Qed.

End ProgramFacts.

(** ** The calls of [perform_backtest] *)

Section CallbackFacts.
Context {L : Library}.

Lemma select_close_length (data_type : string) (df : DataFrame) (close : Close) :
  select_close data_type df = Some close -> List.length close = List.length df.
Proof.
  unfold select_close.
  destruct (String.eqb data_type "postgres");
    [|destruct (String.eqb data_type "yfinance")];
    intros [= <-]; apply length_map.
Qed.

Ltac bind_step :=
  cbn [bind ret Monad_prog];
  lazymatch goal with
  | |- calls_satisfy _ (prog_bind (perform _) _) =>
      apply calls_satisfy_perform; [ | intros ? ]
  | |- calls_satisfy _ (prog_bind (lift _) _) =>
      apply calls_satisfy_lift; intros ? ?
  | |- calls_satisfy _ (prog_bind (unbound _) _) =>
      apply calls_satisfy_unbound; intros ? ?
  end.

Lemma crossover_windows_calls (rq : request) (talib : string) (kwargs : pf_kwargs)
  (price : Price) (periods : params) (all_periods : bool) :
  String.eqb (selected_strategy rq) "RSI" = false ->
  expected_kwargs rq kwargs ->
  calls_satisfy (expected_call rq)
    (crossover_windows talib kwargs price periods all_periods).
Proof.
  intros Hs Hkw. unfold crossover_windows. cbn [bind ret Monad_prog].
  apply calls_satisfy_bind.
  - destruct all_periods.
    + cbn. auto.
    + repeat bind_step; cbn; rewrite ?Hs; auto.
  - intros [fast slow]. repeat bind_step; cbn; auto.
Qed.

Lemma rsi_windows_calls (rq : request) (kwargs : pf_kwargs)
  (price : Price) (entry_exit_values : params) (dummy_variable : bool) :
  String.eqb (selected_strategy rq) "RSI" = true ->
  expected_kwargs rq kwargs ->
  calls_satisfy (expected_call rq)
    (rsi_windows kwargs price entry_exit_values dummy_variable).
Proof.
  intros Hs Hkw. unfold rsi_windows.
  repeat bind_step; cbn; rewrite ?Hs; auto.
Qed.

Lemma strategy_branch_calls (rq : request) (kwargs : pf_kwargs) (env : strategy_env)
  (price : Price) (p : params) (flag : bool) :
  strategy_branch rq kwargs = Ok (Some env) ->
  expected_kwargs rq kwargs ->
  calls_satisfy (expected_call rq) (backtest_windows env price p flag).
Proof.
  unfold strategy_branch. intros Henv Hkw.
  destruct (String.eqb_spec (selected_strategy rq) "SMA Crossover") as [Hs|_];
    [|destruct (String.eqb_spec (selected_strategy rq) "EMA Crossover") as [Hs|_];
      [|destruct (String.eqb (selected_strategy rq) "RSI") eqn:Hs;
        [|discriminate]]];
    cbn [bind ret Monad_result result_bind] in Henv;
    destruct (py_index (selected_range rq) 0); try discriminate;
    destruct (py_index (selected_range rq) 1); try discriminate;
    cbn [result_bind] in Henv;
    destruct (closed_arange _ _ _ _); try discriminate;
    injection Henv as <-; cbn [backtest_windows].
  - apply crossover_windows_calls; [now rewrite Hs | assumption].
  - apply crossover_windows_calls; [now rewrite Hs | assumption].
  - now apply rsi_windows_calls.
Qed.

Lemma averages_calls (rq : request) (pf : Portfolio) (days : Z) :
  calls_satisfy (expected_call rq) (averages pf days).
Proof.
  unfold averages. repeat bind_step; cbn; auto.
  destruct (days =? 0); cbn; auto.
  repeat (split; [exact I | intros ?]). exact I.
Qed.

Lemma create_table_calls (rq : request) (df : Frame) :
  calls_satisfy (expected_call rq) (create_table df).
Proof. unfold create_table. repeat bind_step; cbn; auto. Qed.

Ltac callback_step :=
  cbn [bind ret Monad_prog];
  lazymatch goal with
  | |- calls_satisfy _ (prog_bind (backtest_windows _ _ _ _) _) =>
      apply calls_satisfy_bind;
      [ eapply strategy_branch_calls;
        [ eassumption | repeat split; assumption ]
      | intros ? ]
  | |- calls_satisfy _ (prog_bind (averages _ _) _) =>
      apply calls_satisfy_bind; [ apply averages_calls | intros ? ]
  | |- calls_satisfy _ (prog_bind (create_table _) _) =>
      apply calls_satisfy_bind; [ apply create_table_calls | intros ? ]
  | |- calls_satisfy _ (match ?x with (_, _) => _ end) => destruct x
  | |- calls_satisfy _ (prog_bind (perform (rolling_split _ _ _ _)) _) =>
      apply calls_satisfy_perform;
      [ cbn [expected_call]; repeat split;
        erewrite select_close_length by eassumption; assumption
      | intros ? ]
  | |- calls_satisfy _ (prog_bind (perform _) _) =>
      apply calls_satisfy_perform;
      [ cbn [expected_call]; auto | intros ? ]
  | |- calls_satisfy _ (prog_bind (unbound _) _) =>
      apply calls_satisfy_unbound; intros ? ?; subst
  | |- calls_satisfy _ (Return _) => exact I
  | |- _ => bind_step
  end.

Lemma run_windows_calls (rq : request) (in_price out_price : Price)
  (out_dates : list DateIndex) :
  calls_satisfy (expected_call rq) (run_windows rq in_price out_price out_dates).
Proof. unfold run_windows. repeat callback_step. Qed.

(** Every call of the callback carries the arguments fixed by its request. *)
Lemma perform_backtest_calls (data_type : string) (rq : request) :
  calls_satisfy (expected_call rq) (perform_backtest data_type rq).
Proof.
  unfold perform_backtest. repeat callback_step. apply run_windows_calls.
Qed.

(** The selected parameters are cached under the session of the request,
    for two hours (line 166). *)
Lemma cache_key_and_timeout (h : handler) (data_type : string) (rq : request) :
  Forall (fun c =>
            match c with
            | cache_set key _ timeout => key = session_id rq /\ timeout = 7200
            | _ => True
            end)
         (trace h (perform_backtest data_type rq)).
Proof.
  eapply Forall_impl; [|apply calls_satisfy_trace, perform_backtest_calls].
  intros [] Hc; try exact I. exact Hc.
Qed.

End CallbackFacts.

(** ** The window length (line 74) *)

Lemma py_round_IZR (z : Z) : py_round (IZR z) = z.
Proof.
  unfold py_round.
  assert (Hup : up (IZR z) = z + 1).
  { symmetry. apply up_tech; [apply Rle_refl | apply IZR_lt; lia]. }
  rewrite Hup. replace (z + 1 - 1) with z by lia.
  destruct (Rlt_dec (IZR z - IZR z) (1 / 2)) as [_|Hn]; [reflexivity|].
  exfalso. apply Hn. lra.
Qed.

Lemma overlap_factor_below_one (nwindows : Z) :
  1 <= nwindows ->
  exists overlap, overlap_factor nwindows = Ok overlap /\ (0 < overlap < 1)%R.
Proof.
  intros HN. destruct (Z_lt_le_dec nwindows 8) as [Hlt|Hge].
  - assert (Hcases : nwindows = 1 \/ nwindows = 2 \/ nwindows = 3 \/ nwindows = 4 \/
                     nwindows = 5 \/ nwindows = 6 \/ nwindows = 7) by lia.
    repeat (destruct Hcases as [-> | Hcases]); try subst nwindows;
      (eexists; split; [reflexivity | lra]).
  - exists (13 / (9 * PI) * atan (IZR nwindows))%R. split.
    + unfold overlap_factor.
      replace (nwindows <? 8) with false by (symmetry; apply Z.ltb_ge; lia).
      reflexivity.
    + assert (H8 : (8 <= IZR nwindows)%R) by (apply IZR_le in Hge; exact Hge).
      pose proof (closed_form_upper (IZR nwindows) ltac:(lra)).
      pose proof (closed_form_lower (IZR nwindows) ltac:(lra)).
      assert (Hinv : (/ IZR nwindows <= / 8)%R) by (apply Rinv_le_contravar; lra).
      lra.
Qed.

(** For a window count of at least 1 the window length is defined and is
    the rounded quotient. *)
Lemma window_len_defined (len_df nwindows : Z) :
  1 <= nwindows ->
  exists overlap,
    overlap_factor nwindows = Ok overlap /\
    ((1 - overlap) * IZR nwindows <> 0)%R /\
    window_len len_df nwindows
    = Ok (py_round (IZR len_df / ((1 - overlap) * IZR nwindows))).
Proof.
  intros HN.
  destruct (overlap_factor_below_one nwindows HN) as (overlap & Hov & Hrange).
  assert (H1 : (1 <= IZR nwindows)%R) by (apply IZR_le in HN; exact HN).
  assert (Hden : ((1 - overlap) * IZR nwindows <> 0)%R) by nra.
  exists overlap. repeat split; try assumption.
  unfold window_len. rewrite Hov. cbn [bind Monad_result result_bind ret].
  destruct (Req_dec_T ((1 - overlap) * IZR nwindows) 0); [contradiction | reflexivity].
Qed.


Example window_len_100_5 : window_len 100 5 = Ok 50.
Proof.
  destruct (window_len_defined 100 5 ltac:(lia)) as (overlap & Hov & _ & ->).
  injection Hov as <-. f_equal.
  replace (100 / ((1 - 0.6) * 5))%R with (IZR 50) by (simpl; lra).
  apply py_round_IZR.
Qed.

Section Claims.
Context {L : Library}.

(** The run starts by fetching the series and splitting it; nothing is
    checked in between.  The rest of the run is [run_windows] on the
    windows the splitter returned. *)
Lemma exec_perform_backtest (h : handler) (data_type : string) (rq : request)
  (start_date end_date : string) (df : DataFrame) (close : Close) (wl : Z) :
  py_index (dates rq) 0 = Ok start_date ->
  py_index (dates rq) 1 = Ok end_date ->
  h (cached_df (selected_timeframe rq) (selected_asset rq) start_date end_date)
  = Ok df ->
  select_close data_type df = Some close ->
  window_len (Z.of_nat (List.length df)) (nwindows rq) = Ok wl ->
  let fetch :=
    cached_df (selected_timeframe rq) (selected_asset rq) start_date end_date in
  let split :=
    rolling_split close (nwindows rq) (inject_Z (insample rq) / 100)%Q wl in
  exec h (perform_backtest data_type rq)
  = match h split with
    | Ok (in_windows, out_windows) =>
        let rest :=
          run_windows rq (fst in_windows) (fst out_windows) (snd out_windows) in
        (fetch :: split :: trace h rest, outcome h rest)
    | Raise e => ([fetch; split], Raise e)
    end.
Proof.
  intros Hd0 Hd1 Hdf Hclose Hwl. cbv zeta.
  unfold perform_backtest. cbn [bind Monad_prog].
  rewrite Hd0. cbn [lift prog_bind]. rewrite Hd1. cbn [lift prog_bind perform exec].
  rewrite Hdf. rewrite Hwl, Hclose. cbn [lift unbound prog_bind ret Monad_prog exec].
  match goal with
  | |- context [h ?c] => destruct (h c) as [w|e]
  end; [|reflexivity].
  change ((Price * list DateIndex) * (Price * list DateIndex))%type in w.
  destruct w as [[in_price in_dates] [out_price out_dates]].
  unfold trace, outcome. cbn [fst snd].
  match goal with
  | |- context [exec h ?p] => destruct (exec h p) as [t out]
  end.
  reflexivity.
Qed.




(** C10: every simulation is run with initial capital 100, fee rate 0 and
    slippage rate 0, whatever the request. *)
Theorem fixed_trading_configuration
  (h : handler) (data_type : string) (rq : request) :
  Forall (fun c =>
            match c with
            | from_signals _ _ _ kwargs =>
                init_cash kwargs = 100 /\ fees kwargs = 0%Q /\ slippage kwargs = 0%Q
            | _ => True
            end)
         (trace h (perform_backtest data_type rq)).
Proof.
  eapply Forall_impl; [|apply calls_satisfy_trace, perform_backtest_calls].
  intros [] Hc; try exact I. cbn [expected_call] in Hc.
  now destruct Hc as (_ & _ & Hcash & Hfees & Hslip).
Qed.


End Claims.

(** ** A concrete run *)

(** A hundred bars, five windows, SMA periods 10 to 210 on 15-minute bars:
    the run makes its three simulations and returns its report. *)
Example sample_run :
  let h := quiet_handler (sample_df 100) sample_series 20 in
  let rq := sample_request "SMA Crossover" "15m" "total_return" [10; 210] in
  let kwargs := mk_pf_kwargs "longonly" [Flt 55.3846; Lit "m"] 100 0 0 in
  simulations (trace h (perform_backtest "yfinance" rq)) = [kwargs; kwargs; kwargs] /\
  exists r, outcome h (perform_backtest "yfinance" rq) = Ok r.
Proof.
  cbv zeta. unfold trace, outcome.
  rewrite (exec_perform_backtest _ "yfinance"
             (sample_request "SMA Crossover" "15m" "total_return" [10; 210])
             "2022-01-03" "2023-01-03" (sample_df 100)
             (map (fun b => (bar_date b, bar_close b)) (sample_df 100)) 50
             eq_refl eq_refl eq_refl eq_refl window_len_100_5).
  split; [vm_compute; reflexivity | eexists; vm_compute; reflexivity].
Qed.




(** ** Two runs of the same request *)

Section Determinism.
Context {L : Library}.






End Determinism.


(** ** The RSI grid *)

Lemma combinations_in (values : list Z) (a b : Z) :
  In (a, b) (combinations values) ->
  exists before after, values = before ++ a :: after /\ In b after.
Proof.
  induction values as [|x rest IH]; cbn [combinations]; [intros []|].
  intros [Hin | Hin]%in_app_or.
  - apply in_map_iff in Hin as (y & [= <- <-] & Hy). now exists [], rest.
  - destruct (IH Hin) as (before & after & -> & Hb).
    now exists (x :: before), after.
Qed.

Lemma combinations_increasing (values : list Z) (a b : Z) :
  StronglySorted Z.lt values -> In (a, b) (combinations values) -> a < b.
Proof.
  intros Hsorted Hin.
  destruct (combinations_in values a b Hin) as (before & after & -> & Hb).
  clear Hin.
  induction before as [|x before IH]; cbn [app] in Hsorted.
  - inversion Hsorted as [|? ? _ Hall]; subst.
    rewrite Forall_forall in Hall. now apply Hall.
  - inversion Hsorted; subst. now apply IH.
Qed.

Lemma StronglySorted_app {A} (R : A -> A -> Prop) (l1 l2 : list A) :
  StronglySorted R l1 -> StronglySorted R l2 ->
  (forall a b, In a l1 -> In b l2 -> R a b) ->
  StronglySorted R (l1 ++ l2).
Proof.
  intros H1 H2 H12. induction H1 as [|x l1 Hl1 IH Hx]; cbn [app]; [assumption|].
  constructor.
  - apply IH. intros a b Ha Hb. apply H12; [now right | assumption].
  - apply Forall_app. split; [assumption|].
    apply Forall_forall. intros b Hb. apply H12; [now left | assumption].
Qed.

(** The grid itself is in grid order. *)
Lemma combinations_grid_order (values : list Z) :
  StronglySorted Z.lt values -> StronglySorted lex_lt (combinations values).
Proof.
  induction 1 as [|x rest Hrest IH Hx]; cbn [combinations]; [constructor|].
  rewrite Forall_forall in Hx.
  apply StronglySorted_app.
  - clear IH Hx. induction Hrest as [|y rest' _ IHrest Hy]; cbn [map];
      constructor; [assumption|].
    rewrite Forall_forall in Hy. apply Forall_forall. intros c Hc.
    apply in_map_iff in Hc as (z & <- & Hz). right. cbn. split; [reflexivity|].
    now apply Hy.
  - exact IH.
  - intros a [b1 b2] Ha Hb.
    apply in_map_iff in Ha as (z & <- & _). left. cbn.
    destruct (combinations_in rest b1 b2 Hb) as (before & after & -> & _).
    apply Hx. apply in_or_app. right. now left.
Qed.

Lemma progression_sorted (start step : Z) (n : nat) :
  0 < step -> StronglySorted Z.lt (progression start step n).
Proof.
  intros Hstep. induction n as [|n IH]; [constructor|].
  rewrite progression_S. clear - Hstep IH.
  assert (Hbound : Forall (fun x => x < start + Z.of_nat n * step)
                          (progression start step n)).
  { unfold progression. apply Forall_forall. intros x Hx.
    apply in_map_iff in Hx as (i & <- & Hi). apply in_seq in Hi. nia. }
  induction IH as [|x rest Hrest IHrest Hx]; cbn [app].
  - repeat constructor.
  - inversion Hbound; subst. constructor; [now apply IHrest|].
    apply Forall_app. split; [assumption | now repeat constructor].
Qed.

Lemma closed_arange_sorted (start stop step : Z) (d : np_dtype) (values : list Z) :
  0 < step ->
  fits d start -> fits d (stop + step) ->
  closed_arange start stop step (Some d) = Ok values ->
  StronglySorted Z.lt values.
Proof.
  intros Hstep Hlo Hhi Hvalues.
  destruct (Z_lt_le_dec start stop) as [Hlt|Hge].
  - rewrite closed_arange_closed_form in Hvalues by assumption.
    injection Hvalues as <-. now apply progression_sorted.
  - assert (Herr : closed_arange start stop step (Some d) = Raise IndexError).
    { unfold closed_arange, np_arange. cbn [bind Monad_result result_bind].
      replace (step =? 0) with false by (symmetry; apply Z.eqb_neq; lia).
      cbn [result_bind].
      replace (Z.to_nat (ceil_div (stop - start) step)) with 0%nat.
      - cbn [seq map]. now rewrite py_index_nil.
      - assert (ceil_div (stop - start) step <= 0); [|lia].
        apply ceil_div_nonpos; lia. }
    congruence.
Qed.

Lemma grid_rows_valid (values : list Z) :
  StronglySorted Z.lt values ->
  Forall2 Z.lt (map fst (combinations values)) (map snd (combinations values)).
Proof.
  intros Hsorted.
  assert (Hall : Forall (fun c => fst c < snd c) (combinations values)).
  { apply Forall_forall. intros [a b] Hin.
    now apply combinations_increasing with values. }
  induction Hall; cbn [map]; constructor; auto.
Qed.

Lemma get_optimal_parameters_labels (metric : string) (s : Series)
  (selected : list Z * list Z) :
  get_optimal_parameters metric s = Ok selected ->
  exists labels,
    selected = (map first labels, map second labels) /\
    Forall (fun lab => In lab (map fst s)) labels.
Proof.
  unfold get_optimal_parameters. cbn [bind Monad_result result_bind ret].
  match goal with
  | |- context [result_bind ?g _] => destruct g as [labels|]; [|discriminate]
  end.
  cbn [result_bind]. intros [= <-].
  exists (map fst (series_loc s labels)). split; [reflexivity|].
  apply Forall_forall. intros lab Hin.
  apply in_map_iff in Hin as (e & <- & He).
  unfold series_loc in He. apply in_flat_map in He as (lab' & _ & He).
  apply filter_In in He as [He _]. now apply in_map.
Qed.

Lemma selected_rows_valid (grid : list (Z * Z)) (metric : string) (s : Series)
  (selected : list Z * list Z) :
  (forall a b, In (a, b) grid -> a < b) ->
  Forall (fun e => In (first (fst e), second (fst e)) grid) s ->
  get_optimal_parameters metric s = Ok selected ->
  Forall2 Z.lt (fst selected) (snd selected).
Proof.
  intros Hgrid Hs Hsel.
  destruct (get_optimal_parameters_labels metric s selected Hsel)
    as (labels & -> & Hlabels).
  cbn [fst snd]. clear Hsel.
  induction Hlabels as [|lab rest Hlab _ IH]; cbn [map];
    constructor; [|assumption].
  apply in_map_iff in Hlab as (e & <- & He).
  rewrite Forall_forall in Hs. apply Hgrid, Hs, He.
Qed.

(** ** Invariants of the calls made so far *)

Section Invariants.
Context {L : Library}.
Variable R : forall c : call, resp c -> Prop.
Variable I : list call -> Prop.

Lemma wp_perform {B} (c : call) (f : resp c -> prog B) (t : list call)
  (Q : B -> list call -> Prop) :
  I (t ++ [c]) ->
  (forall r, R c r -> wp R I (f r) (t ++ [c]) Q) ->
  wp R I (prog_bind (perform c) f) t Q.
Proof. intros Hc Hf. cbn. split; assumption. Qed.

Lemma wp_lift {A B} (r : result A) (f : A -> prog B) (t : list call)
  (Q : B -> list call -> Prop) :
  (forall a, r = Ok a -> wp R I (f a) t Q) ->
  wp R I (prog_bind (lift r) f) t Q.
Proof. destruct r as [a|e]; cbn; auto. Qed.

Lemma wp_unbound {A B} (name : option A) (f : A -> prog B) (t : list call)
  (Q : B -> list call -> Prop) :
  (forall a, name = Some a -> wp R I (f a) t Q) ->
  wp R I (prog_bind (unbound name) f) t Q.
Proof. destruct name as [a|]; cbn; auto. Qed.

Lemma wp_bind {A B} (p : prog A) (f : A -> prog B) (t : list call)
  (Q : B -> list call -> Prop) :
  wp R I p t (fun a t' => wp R I (f a) t' Q) ->
  wp R I (prog_bind p f) t Q.
Proof.
  revert t. induction p as [a|e|c k IH]; intros t; cbn [wp prog_bind]; auto.
  intros [Hc Hk]. split; [assumption|]. intros r Hr. apply IH, Hk, Hr.
Qed.

Lemma wp_sound {A} (h : handler) (p : prog A) (t : list call)
  (Q : A -> list call -> Prop) :
  respects R h -> I t -> wp R I p t Q -> I (t ++ trace h p).
Proof.
  intros Hh. unfold trace. revert t.
  induction p as [a|e|c k IH]; intros t Ht; cbn [wp exec fst].
  - intros _. now rewrite app_nil_r.
  - intros _. now rewrite app_nil_r.
  - intros [Hc Hk]. destruct (h c) as [r|e] eqn:Hr; [|exact Hc].
    specialize (IH r (t ++ [c]) Hc (Hk r (Hh c r Hr))).
    destruct (exec h (k r)) as [t' out]. cbn [fst] in *.
    now rewrite <- app_assoc in IH.
Qed.

Lemma wp_returns {A} (h : handler) (p : prog A) (t : list call)
  (Q : A -> list call -> Prop) (a : A) :
  respects R h -> wp R I p t Q -> outcome h p = Ok a -> Q a (t ++ trace h p).
Proof.
  intros Hh. unfold trace, outcome. revert t.
  induction p as [a'|e|c k IH]; intros t; cbn [wp exec fst snd].
  - intros HQ [= <-]. now rewrite app_nil_r.
  - discriminate.
  - intros [_ Hk]. destruct (h c) as [r|e] eqn:Hr; [|discriminate].
    specialize (IH r (t ++ [c]) (Hk r (Hh c r Hr))).
    destruct (exec h (k r)) as [t' out]. cbn [fst snd] in *.
    intros Hout. rewrite <- app_assoc in IH. now apply IH.
Qed.

End Invariants.

(** ** Invariants of a run *)

Section RunFacts.
Context {L : Library}.

Lemma rsi_branch_inv (rq : request) (kwargs : pf_kwargs) (lo hi : Z)
  (env : option strategy_env) :
  selected_strategy rq = "RSI"%string ->
  py_index (selected_range rq) 0 = Ok lo ->
  py_index (selected_range rq) 1 = Ok hi ->
  strategy_branch rq kwargs = Ok env ->
  exists raw columns optimal_columns,
    closed_arange lo hi 2 (Some int16) = Ok raw /\
    env = Some (mk_strategy_env columns optimal_columns
                  (Rows (map fst (combinations raw)) (map snd (combinations raw)))
                  (rsi_windows kwargs)).
Proof.
  intros Hs Hlo Hhi. unfold strategy_branch. rewrite Hs, Hlo, Hhi.
  cbn [String.eqb Ascii.eqb Bool.eqb bind ret Monad_result result_bind].
  destruct (closed_arange lo hi 2 (Some int16)) as [raw|]; [|discriminate].
  cbn [result_bind]. intros [= <-]. exists raw. do 2 eexists. split; reflexivity.
Qed.

Lemma py_index_pair_0 {A} (a b : A) : py_index [a; b] 0 = Ok a.
Proof. reflexivity. Qed.

Lemma py_index_pair_1 {A} (a b : A) : py_index [a; b] 1 = Ok b.
Proof. reflexivity. Qed.

(** One step of a run: [solve_invariant] proves the invariant of the calls
    made so far, [on_lift] may use the equation of a computed value. *)
Ltac wp_step_with solve_invariant on_lift :=
  cbn [bind ret Monad_prog app];
  lazymatch goal with
  | |- wp _ _ (prog_bind (perform _) _) _ _ =>
      apply wp_perform; [ solve_invariant | intros ? ? ]
  | |- wp _ _ (perform _) _ _ =>
      cbn [perform wp]; split; [ solve_invariant | intros ? ? ]
  | |- wp _ _ (prog_bind (lift _) _) _ _ =>
      let H := fresh "H" in
      apply wp_lift; intros ? H;
      try (rewrite ?py_index_pair_0, ?py_index_pair_1 in H;
           cbn [result_bind] in H; injection H as <-);
      try on_lift H
  | |- wp _ _ (prog_bind (unbound _) _) _ _ =>
      let H := fresh "H" in
      apply wp_unbound; intros ? H;
      try (injection H as <-;
           cbn [backtest_windows parameter_values columns_list
                optimal_columns_list])
  | |- wp _ _ (run_windows _ _ _ _) _ _ => unfold run_windows
  | |- wp _ _ (prog_bind (rsi_windows _ _ _ _) _) _ _ =>
      unfold rsi_windows;
      cbn [bind ret Monad_prog params_index Monad_result result_bind]
  | |- wp _ _ (prog_bind (crossover_windows _ _ _ _ _) _) _ _ =>
      unfold crossover_windows
  | |- wp _ _ (prog_bind (averages _ _) _) _ _ => unfold averages
  | |- wp _ _ (prog_bind (create_table _) _) _ _ => unfold create_table
  | |- wp _ _ (prog_bind (prog_bind _ _) _) _ _ => apply wp_bind
  | |- wp _ _ (prog_bind (if ?b then _ else _) _) _ _ => destruct b
  | |- wp _ _ (prog_bind (Throw _) _) _ _ => exact I
  | |- wp _ _ (prog_bind (Return _) _) _ _ => cbn [prog_bind]
  | |- wp _ _ (match ?x with (_, _) => _ end) _ _ => destruct x
  | |- wp _ _ (Return _) _ _ => cbn [wp]; try exact I
  | |- wp _ _ (Throw _) _ _ => exact I
  end.

(** Along a run of the RSI strategy every submission has its entries below
    its exits. *)
Lemma perform_backtest_rsi_wp (data_type : string) (rq : request) (lo hi : Z) :
  selected_strategy rq = "RSI"%string ->
  py_index (selected_range rq) 0 = Ok lo ->
  py_index (selected_range rq) 1 = Ok hi ->
  fits int16 lo -> fits int16 (hi + 2) ->
  wp (rsi_labels lo hi) thresholds_valid (perform_backtest data_type rq) []
     (fun _ _ => True).
Proof.
  intros Hs Hlo Hhi Hfl Hfh.
  unfold perform_backtest.
  repeat
    (wp_step_with
       (* the invariant: the pairs submitted so far are valid *)
       ltac:(unfold thresholds_valid; cbn [app submissions];
             repeat first [ apply Forall_nil | apply Forall_cons ];
             cbn [entry_below_exit]; assumption)
       (* the grid, when the branch is taken; the selection, when made *)
       ltac:(fun H =>
               lazymatch type of H with
               | strategy_branch _ _ = Ok _ =>
                   let raw := fresh "raw" in
                   let Hraw := fresh "Hraw" in
                   destruct (rsi_branch_inv _ _ _ _ _ Hs Hlo Hhi H)
                     as (raw & ? & ? & Hraw & ->);
                   pose proof (closed_arange_sorted lo hi 2 int16 raw
                                 ltac:(lia) Hfl Hfh Hraw);
                   pose proof (grid_rows_valid raw ltac:(assumption));
                   pose proof (fun x y =>
                                 combinations_increasing raw x y
                                   ltac:(assumption))
               | get_optimal_parameters _ ?s = Ok _ =>
                   lazymatch goal with
                   | Hr : rsi_labels _ _ (deep_getattr _ _) s,
                     Hraw : closed_arange _ _ _ _ = Ok ?raw,
                     Hlt : forall x y, In (x, y) (combinations ?raw) -> x < y
                     |- _ =>
                       pose proof (selected_rows_valid _ _ _ _ Hlt (Hr _ Hraw) H);
                       clear Hr
                   end
               end)).
Qed.

Lemma strategy_branch_windows (rq : request) (kwargs : pf_kwargs)
  (env : strategy_env) :
  strategy_branch rq kwargs = Ok (Some env) ->
  (exists talib, backtest_windows env = crossover_windows talib kwargs) \/
  backtest_windows env = rsi_windows kwargs.
Proof.
  unfold strategy_branch.
  destruct (String.eqb (selected_strategy rq) "SMA Crossover");
    [|destruct (String.eqb (selected_strategy rq) "EMA Crossover");
      [|destruct (String.eqb (selected_strategy rq) "RSI"); [|discriminate]]];
    cbn [bind ret Monad_result result_bind];
    destruct (py_index (selected_range rq) 0); try discriminate;
    destruct (py_index (selected_range rq) 1); try discriminate;
    cbn [result_bind];
    destruct (closed_arange _ _ _ _); try discriminate;
    intros [= <-]; cbn [backtest_windows]; eauto.
Qed.

(** A run that returns its report has made exactly three simulations: the
    in-sample sweep, the out-of-sample test of the selected parameters and
    the out-of-sample sweep. *)
Lemma three_simulations_wp (data_type : string) (rq : request) :
  wp any_response (fun _ => True) (perform_backtest data_type rq) []
     (fun _ t => List.length (simulations t) = 3%nat).
Proof.
  unfold perform_backtest.
  repeat (wp_step_with ltac:(exact I) ltac:(fun H => idtac)).
  match goal with
  | H : strategy_branch _ _ = Ok ?o, H' : ?o = Some _ |- _ =>
      rewrite H' in H;
      destruct (strategy_branch_windows _ _ _ H) as [[talib ->] | ->]
  end;
    repeat (wp_step_with ltac:(exact I) ltac:(fun H => idtac));
    reflexivity.
Qed.

Lemma successful_run_simulations (h : handler) (data_type : string)
  (rq : request) (r : report) :
  outcome h (perform_backtest data_type rq) = Ok r ->
  List.length (simulations (trace h (perform_backtest data_type rq))) = 3%nat.
Proof.
  intros Hout.
  apply (wp_returns any_response (fun _ => True) h
           (perform_backtest data_type rq) []
           (fun _ t => List.length (simulations t) = 3%nat) r).
  - intros c x _. exact I.
  - apply three_simulations_wp.
  - exact Hout.
Qed.

End RunFacts.

Section RsiClaim.
Context {L : Library}.

(** C7: in a run of the RSI strategy whose range lies within int16, as the
    sliders' values do, every oscillator is computed by [run] with the fixed
    period 14,
    and every evaluation is submitted with each entry threshold strictly
    below its exit threshold: the grid holds only such combinations, and the
    combinations selected from the metric Series, whose columns are labelled
    by the grid, are among them. *)
Theorem rsi_period_and_thresholds
  (h : handler) (data_type : string) (rq : request) (lo hi : Z) :
  selected_strategy rq = "RSI"%string ->
  py_index (selected_range rq) 0 = Ok lo ->
  py_index (selected_range rq) 1 = Ok hi ->
  fits int16 lo -> fits int16 (hi + 2) ->
  (forall pf metric s raw,
     closed_arange lo hi 2 (Some int16) = Ok raw ->
     h (deep_getattr pf metric) = Ok s ->
     Forall (fun e => In (first (fst e), second (fst e)) (combinations raw)) s) ->
  Forall rsi_period_14 (trace h (perform_backtest data_type rq)) /\
  Forall entry_below_exit (submissions (trace h (perform_backtest data_type rq))).
Proof.
  intros Hs Hlo Hhi Hfl Hfh Hlabels. split.
  - eapply Forall_impl; [|apply calls_satisfy_trace, perform_backtest_calls].
    intros [] Hc; try exact I. cbn [expected_call] in Hc.
    rewrite Hs in Hc. cbn in Hc. cbn [rsi_period_14]. tauto.
  - change (thresholds_valid ([] ++ trace h (perform_backtest data_type rq))).
    apply wp_sound with (R := rsi_labels lo hi) (Q := fun _ _ => True).
    + intros c r Hr raw Hraw.
      destruct c; try exact I. cbn [labelled_by]. eapply Hlabels; eassumption.
    + constructor.
    + now apply perform_backtest_rsi_wp.
Qed.

End RsiClaim.

Lemma labelled_by_grid_check (grid : list (Z * Z)) (s : Series) :
  forallb (fun e =>
             existsb (fun c => (fst c =? first (fst e)) && (snd c =? second (fst e)))
                     grid) s = true ->
  Forall (fun e => In (first (fst e), second (fst e)) grid) s.
Proof.
  intros Hall. apply Forall_forall. intros e He.
  rewrite forallb_forall in Hall. specialize (Hall e He).
  apply existsb_exists in Hall as ([a b] & Hin & Heq).
  cbn [fst snd] in Heq. apply andb_true_iff in Heq as [Ha Hb].
  apply Z.eqb_eq in Ha, Hb. now subst.
Qed.

Lemma rsi_period_and_thresholds_witness :
  let h := quiet_handler (sample_df 100) rsi_series 20 in
  let rq := sample_request "RSI" "1d" "sharpe_ratio" [20; 30] in
  fits int16 20 /\ fits int16 (30 + 2) /\
  submissions (trace h (perform_backtest "postgres" rq))
  = [(Array [20; 20; 20; 20; 20; 22; 22; 22; 22; 24; 24; 24; 26; 26; 28],
      Array [22; 24; 26; 28; 30; 24; 26; 28; 30; 26; 28; 30; 28; 30; 30]);
     (Array [20; 22], Array [24; 24]);
     (Array [20; 20; 20; 20; 20; 22; 22; 22; 22; 24; 24; 24; 26; 26; 28],
      Array [22; 24; 26; 28; 30; 24; 26; 28; 30; 26; 28; 30; 28; 30; 30])] /\
  Forall rsi_period_14 (trace h (perform_backtest "postgres" rq)) /\
  Forall entry_below_exit (submissions (trace h (perform_backtest "postgres" rq))).
Proof.
  cbv zeta.
  split; [unfold fits; simpl; lia|]. split; [unfold fits; simpl; lia|].
  split.
  - unfold trace.
    rewrite (exec_perform_backtest _ "postgres"
               (sample_request "RSI" "1d" "sharpe_ratio" [20; 30])
               "2022-01-03" "2023-01-03" (sample_df 100)
               (map (fun b => (bar_date b, bar_close b)) (sample_df 100)) 50
               eq_refl eq_refl eq_refl eq_refl window_len_100_5).
    vm_compute. reflexivity.
  - apply (rsi_period_and_thresholds
             (quiet_handler (sample_df 100) rsi_series 20) "postgres"
             (sample_request "RSI" "1d" "sharpe_ratio" [20; 30]) 20 30).
    + reflexivity.
    + reflexivity.
    + reflexivity.
    + unfold fits; simpl; lia.
    + unfold fits; simpl; lia.
    + intros pf metric s raw Hraw Hs.
      vm_compute in Hraw. injection Hraw as <-.
      cbn [quiet_handler] in Hs. injection Hs as <-.
      apply labelled_by_grid_check. reflexivity.
Defined.

(** * Further properties of the code *)

(** ** [overlap_factor] outside the table *)

Lemma py_index_below (A : Type) (l : list A) (i : Z) :
  i < - Z.of_nat (List.length l) -> py_index l i = Raise IndexError.
Proof.
  intros Hi. unfold py_index.
  replace (i <? 0) with true by (symmetry; apply Z.ltb_lt; lia).
  replace (0 <=? i + Z.of_nat (List.length l)) with false
    by (symmetry; apply Z.leb_gt; lia).
  reflexivity.
Qed.

Lemma window_count_cases (n : Z) :
  -4 <= n < 8 -> In n [-4; -3; -2; -1; 0; 1; 2; 3; 4; 5; 6; 7].
Proof. cbn [In]. lia. Qed.

(** X1: below two windows the lookup of [overlap_factor] wraps around
    instead of failing: for a window count from -4 to 1 the negative index
    reads the table from its end, so that the result is the factor of six
    windows more (one window gets 0.64, the factor of seven); the lookup
    raises an IndexError exactly for window counts below -4. *)
Theorem overlap_factor_wraps_around (nwindows : Z) :
  (overlap_factor nwindows = Raise IndexError <-> nwindows < -4) /\
  (-4 <= nwindows < 2 ->
   overlap_factor nwindows = overlap_factor (nwindows + 6)).
Proof.
  split.
  - split.
    + intros H. destruct (Z_lt_le_dec nwindows (-4)) as [|Hge]; [assumption|].
      exfalso. destruct (Z_lt_le_dec nwindows 8) as [Hlt|Hge8].
      * pose proof (window_count_cases nwindows ltac:(lia)) as Hc.
        cbn [In] in Hc.
        repeat (destruct Hc as [<- | Hc]); try contradiction; discriminate H.
      * unfold overlap_factor in H.
        replace (nwindows <? 8) with false in H by (symmetry; apply Z.ltb_ge; lia).
        discriminate H.
    + intros H. unfold overlap_factor.
      replace (nwindows <? 8) with true by (symmetry; apply Z.ltb_lt; lia).
      apply py_index_below. cbn. lia.
  - intros H.
    assert (Hc : nwindows = -4 \/ nwindows = -3 \/ nwindows = -2 \/
                 nwindows = -1 \/ nwindows = 0 \/ nwindows = 1) by lia.
    repeat (destruct Hc as [-> | Hc]); try subst nwindows; reflexivity.
Qed.

Lemma overlap_factor_table (n : Z) :
  2 <= n < 8 ->
  exists x, overlap_factor n = Ok x /\
            (0.375 <= x <= 0.64)%R.
Proof.
  intros H.
  assert (Hc : n = 2 \/ n = 3 \/ n = 4 \/ n = 5 \/ n = 6 \/ n = 7) by lia.
  repeat (destruct Hc as [-> | Hc]); try subst n;
    (eexists; split; [reflexivity | lra]).
Qed.

Lemma overlap_factor_closed_form (n : Z) :
  8 <= n ->
  overlap_factor n = Ok (13 / (9 * PI) * atan (IZR n))%R /\
  (0.66 < 13 / (9 * PI) * atan (IZR n) < 13 / 18)%R.
Proof.
  intros Hge. split.
  - unfold overlap_factor.
    replace (n <? 8) with false by (symmetry; apply Z.ltb_ge; lia).
    reflexivity.
  - assert (H8 : (8 <= IZR n)%R) by (apply IZR_le in Hge; exact Hge).
    pose proof (closed_form_upper (IZR n) ltac:(lra)).
    pose proof (closed_form_lower (IZR n) ltac:(lra)).
    assert (Hinv : (/ IZR n <= / 8)%R) by (apply Rinv_le_contravar; lra).
    lra.
Qed.

(** X2: from two windows on the overlap factor grows strictly with the
    number of windows, across the table and the closed form alike, and stays
    between 0.375 and 13/18. *)
Theorem overlap_factor_increasing (m n : Z) :
  2 <= m -> m < n ->
  exists x y,
    overlap_factor m = Ok x /\ overlap_factor n = Ok y /\
    (0.375 <= x)%R /\ (x < y)%R /\ (y < 13 / 18)%R.
Proof.
  intros Hm Hmn.
  destruct (Z_lt_le_dec n 8) as [Hn|Hn].
  - (* both in the table *)
    assert (Hcm : m = 2 \/ m = 3 \/ m = 4 \/ m = 5 \/ m = 6) by lia.
    assert (Hcn : n = 3 \/ n = 4 \/ n = 5 \/ n = 6 \/ n = 7) by lia.
    repeat (destruct Hcm as [-> | Hcm]); try subst m;
      repeat (destruct Hcn as [-> | Hcn]); try subst n; try lia;
      (do 2 eexists; split; [reflexivity|]; split; [reflexivity|]; lra).
  - destruct (overlap_factor_closed_form n Hn) as [Hy Hybound].
    destruct (Z_lt_le_dec m 8) as [Hm8|Hm8].
    + destruct (overlap_factor_table m ltac:(lia)) as (x & Hx & Hxb).
      exists x. eexists. split; [exact Hx|]. split; [exact Hy|].
      lra.
    + destruct (overlap_factor_closed_form m Hm8) as [Hx Hxbound].
      do 2 eexists. split; [exact Hx|]. split; [exact Hy|].
      split; [lra|]. split; [|lra].
      apply Rmult_lt_compat_l.
      * pose proof PI_RGT_0. apply Rdiv_lt_0_compat; lra.
      * apply atan_increasing. apply IZR_lt. exact Hmn.
Qed.

Lemma overlap_factor_increasing_witness :
  2 <= 7 /\ 7 < 8 /\
  exists x y,
    overlap_factor 7 = Ok x /\ overlap_factor 8 = Ok y /\
    (0.375 <= x)%R /\ (x < y)%R /\ (y < 13 / 18)%R.
Proof.
  split; [lia|]. split; [lia|].
  apply (overlap_factor_increasing 7 8); lia.
Defined.

(** ** The window length outside the form's bounds *)

Lemma py_round_near (x : R) :
  (IZR (py_round x) - 1 / 2 <= x <= IZR (py_round x) + 1 / 2)%R.
Proof.
  unfold py_round.
  destruct (archimed x) as [Hup Hlow].
  rewrite minus_IZR.
  destruct (Rlt_dec (x - (IZR (up x) - 1)) (1 / 2)) as [Hd|Hd].
  - rewrite minus_IZR. lra.
  - destruct (Rlt_dec (1 / 2) (x - (IZR (up x) - 1))) as [Hd'|Hd'].
    + rewrite plus_IZR, minus_IZR. lra.
    + destruct (Z.even (up x - 1)).
      * rewrite minus_IZR. lra.
      * rewrite plus_IZR, minus_IZR. lra.
Qed.

Lemma py_round_range (x : R) (lo hi : Z) :
  (IZR lo - 1 / 2 < x)%R -> (x < IZR hi + 1 / 2)%R ->
  lo <= py_round x <= hi.
Proof.
  intros Hlo Hhi. pose proof (py_round_near x) as [H1 H2].
  split.
  - assert (H : (IZR lo < IZR (py_round x) + 1)%R) by lra.
    rewrite <- plus_IZR in H. apply lt_IZR in H. lia.
  - assert (H : (IZR (py_round x) < IZR hi + 1)%R) by lra.
    rewrite <- plus_IZR in H. apply lt_IZR in H. lia.
Qed.

(** The overlap factor of every window count from -4 on, and the sign of
    the denominator of line 74. *)
Lemma overlap_factor_defined (nwindows : Z) :
  -4 <= nwindows ->
  exists overlap, overlap_factor nwindows = Ok overlap /\ (0.375 <= overlap < 1)%R.
Proof.
  intros HN. destruct (Z_lt_le_dec nwindows 8) as [Hlt|Hge].
  - pose proof (window_count_cases nwindows ltac:(lia)) as Hc.
    cbn [In] in Hc.
    repeat (destruct Hc as [<- | Hc]); try contradiction;
      (eexists; split; [reflexivity | lra]).
  - destruct (overlap_factor_closed_form nwindows Hge) as [Hov Hb].
    eexists. split; [exact Hov | lra].
Qed.


Lemma window_len_value (len_df nwindows : Z) (overlap : R) :
  overlap_factor nwindows = Ok overlap ->
  ((1 - overlap) * IZR nwindows <> 0)%R ->
  window_len len_df nwindows
  = Ok (py_round (IZR len_df / ((1 - overlap) * IZR nwindows))).
Proof.
  intros Hov Hden. unfold window_len. rewrite Hov.
  cbn [bind Monad_result result_bind ret].
  destruct (Req_dec_T ((1 - overlap) * IZR nwindows) 0); [contradiction | reflexivity].
Qed.



Lemma window_len_returns (len_df nwindows : Z) :
  -4 <= nwindows -> nwindows <> 0 ->
  exists w, window_len len_df nwindows = Ok w.
Proof.
  intros Hge H0.
  destruct (overlap_factor_defined nwindows Hge) as (overlap & Hov & Hb).
  assert (Hden : ((1 - overlap) * IZR nwindows <> 0)%R).
  { assert (IZR nwindows <> 0)%R by (apply not_0_IZR; exact H0). nra. }
  rewrite (window_len_value len_df nwindows overlap Hov Hden). eauto.
Qed.


(** The denominator of line 74 for two windows or more. *)
Lemma window_denominator (nwindows : Z) :
  2 <= nwindows ->
  exists overlap,
    overlap_factor nwindows = Ok overlap /\
    (1.25 <= (1 - overlap) * IZR nwindows)%R.
Proof.
  intros HN. destruct (Z_lt_le_dec nwindows 8) as [Hlt|Hge].
  - assert (Hc : nwindows = 2 \/ nwindows = 3 \/ nwindows = 4 \/ nwindows = 5 \/
                 nwindows = 6 \/ nwindows = 7) by lia.
    repeat (destruct Hc as [-> | Hc]); try subst nwindows;
      (eexists; split; [reflexivity | lra]).
  - destruct (overlap_factor_closed_form nwindows Hge) as [Hov Hb].
    eexists. split; [exact Hov|].
    assert (H8 : (8 <= IZR nwindows)%R) by (apply IZR_le in Hge; exact Hge).
    nra.
Qed.

(** X4: for two windows or more the window length handed to the splitter
    lies between 0 and the length of the series. *)
Theorem window_len_within_series (len_df nwindows : Z) :
  0 <= len_df -> 2 <= nwindows ->
  exists w, window_len len_df nwindows = Ok w /\ 0 <= w <= len_df.
Proof.
  intros HL HN.
  destruct (window_denominator nwindows HN) as (overlap & Hov & Hden).
  rewrite (window_len_value len_df nwindows overlap Hov ltac:(lra)).
  eexists. split; [reflexivity|].
  assert (HLr : (0 <= IZR len_df)%R) by (apply IZR_le in HL; exact HL).
  set (d := ((1 - overlap) * IZR nwindows)%R) in *.
  assert (Hx : (IZR len_df / d * d = IZR len_df)%R) by (field; lra).
  assert (Hx0 : (0 <= IZR len_df / d)%R).
  { apply Rmult_le_pos; [assumption|]. left. apply Rinv_0_lt_compat. lra. }
  apply py_round_range; nra.
Qed.

Lemma window_len_within_series_witness :
  0 <= 100 /\ 2 <= 5 /\
  exists w, window_len 100 5 = Ok w /\ 0 <= w <= 100.
Proof.
  split; [lia|]. split; [lia|].
  apply (window_len_within_series 100 5); lia.
Defined.

(** X5: below two windows the window length is no length of a window of
    the series: with one window it is more than twice the length of the
    series, with a negative window count it is zero or negative. *)
Theorem window_len_outside_series (len_df nwindows : Z) :
  1 <= len_df -> -4 <= nwindows <= 1 -> nwindows <> 0 ->
  exists w, window_len len_df nwindows = Ok w /\
            (nwindows = 1 -> 2 * len_df < w) /\
            (nwindows < 0 -> w <= 0).
Proof.
  intros HL HN H0.
  assert (HLr : (1 <= IZR len_df)%R) by (apply IZR_le in HL; exact HL).
  assert (Hc : nwindows = -4 \/ nwindows = -3 \/ nwindows = -2 \/
               nwindows = -1 \/ nwindows = 1) by lia.
  repeat (destruct Hc as [-> | Hc]); try subst nwindows.
  all: match goal with
       | |- context [window_len _ ?n] =>
           destruct (overlap_factor_defined n ltac:(lia)) as (overlap & Hov & _);
           injection Hov as <-
       end.
  all: erewrite window_len_value by (first [reflexivity | lra]).
  all: eexists; (split; [reflexivity|]); split; intros Hcase; try lia.
  all: match goal with
       | |- context [py_round (_ / ?d)] =>
           pose proof (py_round_near (IZR len_df / d)) as [Hr1 Hr2];
           assert (Hx : (IZR len_df / d * d = IZR len_df)%R) by (field; lra);
           set (x := (IZR len_df / d)%R) in *
       end.
  all: first [ apply lt_IZR; rewrite mult_IZR; lra
             | apply Z.lt_succ_r; apply lt_IZR; rewrite succ_IZR; lra ].
Qed.

Lemma window_len_outside_series_witness :
  1 <= 100 /\ -4 <= 1 <= 1 /\ 1 <> 0 /\
  exists w, window_len 100 1 = Ok w /\
            (1 = 1 -> 2 * 100 < w) /\ (1 < 0 -> w <= 0).
Proof.
  split; [lia|]. split; [lia|]. split; [lia|].
  apply (window_len_outside_series 100 1); lia.
Defined.

(** ** The time interval (lines 78-82) *)











(** ** Descending ranges of [closed_arange] *)

Lemma ceil_div_neg (a b : Z) :
  b < 0 -> a < 0 -> ceil_div a b = (- a - 1) / (- b) + 1.
Proof.
  intros Hb Ha. unfold ceil_div.
  pose proof (Z.div_mod (- a) b ltac:(lia)) as Hdm.
  pose proof (Z.mod_neg_bound (- a) b Hb) as Hm.
  pose proof (Z.div_mod (- a - 1) (- b) ltac:(lia)) as Hdm'.
  pose proof (Z.mod_pos_bound (- a - 1) (- b) ltac:(lia)) as Hm'.
  nia.
Qed.

(** X8: with a negative step and [start > stop] (within the dtype's
    range) [closed_arange] returns the terms [start + i * step] above [stop]
    followed by [stop] itself: for a descending range the test of line 33
    always holds, and [stop] is appended whether or not it is a term of the
    progression. *)
Theorem closed_arange_descending
  (start stop step : Z) (dtype : option np_dtype) :
  step < 0 -> stop < start ->
  fits (dtype_or_default dtype) start ->
  fits (dtype_or_default dtype) (stop + step) ->
  let n := Z.to_nat ((start - stop - 1) / (- step)) in
  closed_arange start stop step dtype
  = Ok (progression start step (S n) ++ [stop]) /\
  Forall (fun x => stop < x) (progression start step (S n)) /\
  (In stop (progression start step (S n)) -> False).
Proof.
  intros Hstep Hlt Hlo Hhi n.
  pose proof (Z.div_mod (start - stop - 1) (- step) ltac:(lia)) as Hdm.
  pose proof (Z.mod_pos_bound (start - stop - 1) (- step) ltac:(lia)) as Hm.
  assert (Hq : 0 <= (start - stop - 1) / (- step)) by (apply Z.div_pos; lia).
  assert (Habove : Forall (fun x => stop < x) (progression start step (S n))).
  { apply Forall_forall. intros x Hx. unfold progression in Hx.
    apply in_map_iff in Hx as (i & <- & Hi). apply in_seq in Hi.
    unfold n in Hi. nia. }
  split; [|split; [exact Habove|]].
  - unfold closed_arange, np_arange. cbn [bind Monad_result result_bind].
    replace (step =? 0) with false by (symmetry; apply Z.eqb_neq; lia).
    rewrite ceil_div_neg by lia.
    replace (- (stop - start) - 1) with (start - stop - 1) by lia.
    replace (Z.to_nat ((start - stop - 1) / - step + 1)) with (S n)
      by (unfold n; lia).
    assert (Hmap : map (fun i => cast (dtype_or_default dtype)
                                   (start + Z.of_nat i * step)) (seq 0 (S n))
                   = progression start step (S n)).
    { unfold progression. apply map_ext_in. intros i Hi. apply in_seq in Hi.
      apply cast_fits. unfold fits in *. unfold n in Hi. nia. }
    rewrite Hmap. cbn [result_bind]. rewrite py_index_progression.
    cbn [result_bind].
    rewrite cast_fits by (unfold fits in *; unfold n; nia).
    replace (start + Z.of_nat n * step + step <=? stop) with true
      by (symmetry; apply Z.leb_le; unfold n; nia).
    rewrite cast_fits by (unfold fits in *; lia).
    reflexivity.
  - intros Hin. rewrite Forall_forall in Habove. specialize (Habove stop Hin). lia.
Qed.

Lemma closed_arange_descending_witness :
  closed_arange 10 0 (-3) None
  = Ok (progression 10 (-3) (S (Z.to_nat ((10 - 0 - 1) / (- (-3))))) ++ [0]) /\
  progression 10 (-3) (S (Z.to_nat ((10 - 0 - 1) / (- (-3))))) ++ [0]
  = [10; 7; 4; 1; 0].
Proof.
  split; [|reflexivity].
  apply (closed_arange_descending 10 0 (-3) None); unfold fits; simpl; lia.
Defined.

(** ** The grids of the strategies (lines 86-139) *)

Lemma combinations_length (values : list Z) :
  (2 * List.length (combinations values)
   = List.length values * (List.length values - 1))%nat.
Proof.
  induction values as [|x rest IH]; [reflexivity|].
  cbn [combinations]. rewrite length_app, length_map. cbn [List.length].
  nia.
Qed.

Lemma combinations_complete (values : list Z) (a b : Z) :
  StronglySorted Z.lt values ->
  (In (a, b) (combinations values) <-> In a values /\ In b values /\ a < b).
Proof.
  intros Hsorted. split.
  - intros Hin. split; [|split].
    + destruct (combinations_in values a b Hin) as (before & after & -> & _).
      apply in_or_app. right. now left.
    + destruct (combinations_in values a b Hin) as (before & after & -> & Hb).
      apply in_or_app. right. now right.
    + now apply combinations_increasing with values.
  - induction Hsorted as [|x rest Hrest IH Hx]; intros (Ha & Hb & Hab);
      [destruct Ha|].
    rewrite Forall_forall in Hx. cbn [combinations]. apply in_or_app.
    destruct Ha as [<- | Ha].
    + left. destruct Hb as [<- | Hb]; [lia|]. now apply in_map.
    + right. destruct Hb as [<- | Hb].
      * specialize (Hx a Ha). lia.
      * apply IH. auto.
Qed.

Lemma combinations_NoDup (values : list Z) :
  StronglySorted Z.lt values -> NoDup (combinations values).
Proof.
  induction 1 as [|x rest Hrest IH Hx]; cbn [combinations]; [constructor|].
  rewrite Forall_forall in Hx.
  assert (Hnd : NoDup rest).
  { clear IH Hx. induction Hrest as [|y rest' _ IHrest Hy]; constructor;
      [|assumption].
    rewrite Forall_forall in Hy. intros Hin. specialize (Hy y Hin). lia. }
  apply NoDup_app.
  - apply Injective_map_NoDup_in; [|assumption].
    intros y z _ _ [= ->]. reflexivity.
  - exact IH.
  - intros [c d] Hc Hd. apply in_map_iff in Hc as (y & [= <- <-] & Hy).
    apply combinations_complete in Hd; [|assumption].
    destruct Hd as (Hin & _ & _). specialize (Hx x Hin). lia.
Qed.

Lemma combine_fst_snd {A B} (l : list (A * B)) :
  combine (map fst l) (map snd l) = l.
Proof.
  induction l as [|[a b] rest IH]; [reflexivity|].
  cbn [map combine fst snd]. now rewrite IH.
Qed.

Lemma progression_in (start step : Z) (n : nat) (x : Z) :
  0 < step ->
  (In x (progression start step n)
   <-> start <= x /\ x < start + Z.of_nat n * step /\ (x - start) mod step = 0).
Proof.
  intros Hstep. unfold progression. rewrite in_map_iff. split.
  - intros (i & <- & Hi). apply in_seq in Hi.
    replace (start + Z.of_nat i * step - start) with (Z.of_nat i * step) by lia.
    rewrite Z.mod_mul by lia. nia.
  - intros (Hlo & Hhi & Hmod).
    pose proof (Z.div_mod (x - start) step ltac:(lia)) as Hdm.
    exists (Z.to_nat ((x - start) / step)).
    assert (0 <= (x - start) / step) by (apply Z.div_pos; lia).
    split; [|apply in_seq]; nia.
Qed.

Section Grids.
Context {L : Library}.

(** X9: for an RSI range [lo < hi] (within int16) the branch of lines
    122-133 binds two rows of thresholds of equal length n (n - 1) / 2, where
    n = (hi - lo) / 2 + 1 is the number of grid values lo, lo + 2, ...; paired
    up, the rows hold every pair of grid values with entry < exit, each
    exactly once. *)
Theorem rsi_grid_complete (rq : request) (kwargs : pf_kwargs) (lo hi : Z) :
  selected_strategy rq = "RSI"%string ->
  py_index (selected_range rq) 0 = Ok lo ->
  py_index (selected_range rq) 1 = Ok hi ->
  lo < hi -> fits int16 lo -> fits int16 (hi + 2) ->
  exists env entries exits,
    strategy_branch rq kwargs = Ok (Some env) /\
    parameter_values env = Rows entries exits /\
    2 * Z.of_nat (List.length entries)
    = ((hi - lo) / 2 + 1) * ((hi - lo) / 2) /\
    List.length exits = List.length entries /\
    NoDup (combine entries exits) /\
    forall a b,
      In (a, b) (combine entries exits)
      <-> lo <= a /\ a < b /\ b <= hi /\
          (a - lo) mod 2 = 0 /\ (b - lo) mod 2 = 0.
Proof.
  intros Hs Hlo Hhi Hlt Hfl Hfh.
  pose proof (closed_arange_closed_form lo hi 2 (Some int16)
                ltac:(lia) Hlt Hfl Hfh) as Hgrid.
  set (raw := progression lo 2 (S (Z.to_nat ((hi - lo) / 2)))) in *.
  assert (Hsorted : StronglySorted Z.lt raw)
    by (apply progression_sorted; lia).
  do 3 eexists. split.
  { unfold strategy_branch. rewrite Hs, Hlo, Hhi.
    cbn [String.eqb Ascii.eqb Bool.eqb bind ret Monad_result result_bind].
    rewrite Hgrid. cbn [result_bind]. reflexivity. }
  cbn [parameter_values]. split; [reflexivity|].
  pose proof (Z.div_mod (hi - lo) 2 ltac:(lia)) as Hdm.
  pose proof (Z.mod_pos_bound (hi - lo) 2 ltac:(lia)) as Hm.
  assert (Hq : 0 <= (hi - lo) / 2) by (apply Z.div_pos; lia).
  split; [|split; [|split]].
  - rewrite length_map.
    pose proof (combinations_length raw) as Hlen.
    unfold raw in Hlen at 2 3. rewrite progression_length in Hlen. nia.
  - now rewrite !length_map.
  - rewrite combine_fst_snd. now apply combinations_NoDup.
  - intros a b. rewrite combine_fst_snd, (combinations_complete raw a b Hsorted).
    unfold raw. rewrite !progression_in by lia.
    pose proof (Z.div_mod (a - lo) 2 ltac:(lia)) as Hda.
    pose proof (Z.div_mod (b - lo) 2 ltac:(lia)) as Hdb.
    split.
    + intros ((Ha1 & Ha2 & Ha3) & (Hb1 & Hb2 & Hb3) & Hab). repeat split; lia.
    + intros (Ha & Hab & Hb & Hma & Hmb). repeat split; lia.
Qed.

End Grids.

Lemma rsi_grid_complete_witness :
  let rq := sample_request "RSI" "1d" "sharpe_ratio" [20; 30] in
  exists env entries exits,
    @strategy_branch unit_library rq (mk_pf_kwargs "longonly" [Lit "1d"] 100 0 0)
    = Ok (Some env) /\
    parameter_values env = Rows entries exits /\
    2 * Z.of_nat (List.length entries) = ((30 - 20) / 2 + 1) * ((30 - 20) / 2) /\
    List.length exits = List.length entries /\
    NoDup (combine entries exits) /\
    forall a b,
      In (a, b) (combine entries exits)
      <-> 20 <= a /\ a < b /\ b <= 30 /\
          (a - 20) mod 2 = 0 /\ (b - 20) mod 2 = 0.
Proof.
  apply (@rsi_grid_complete unit_library
           (sample_request "RSI" "1d" "sharpe_ratio" [20; 30])
           (mk_pf_kwargs "longonly" [Lit "1d"] 100 0 0) 20 30);
    try reflexivity; unfold fits; simpl; lia.
Defined.

(** ** Runs that end before the first indicator *)

Section EarlyErrors.
Context {L : Library}.

Lemma strategy_branch_degenerate (rq : request) (kwargs : pf_kwargs) (lo hi : Z) :
  selected_strategy rq = "SMA Crossover"%string \/
  selected_strategy rq = "EMA Crossover"%string \/
  selected_strategy rq = "RSI"%string ->
  py_index (selected_range rq) 0 = Ok lo ->
  py_index (selected_range rq) 1 = Ok hi ->
  hi <= lo ->
  strategy_branch rq kwargs = Raise IndexError.
Proof.
  intros Hs Hlo Hhi Hle.
  assert (Herr : forall step, 0 < step ->
                 closed_arange lo hi step (Some int16) = Raise IndexError).
  { intros step Hstep.
    unfold closed_arange, np_arange. cbn [bind Monad_result result_bind].
    replace (step =? 0) with false by (symmetry; apply Z.eqb_neq; lia).
    cbn [result_bind].
    replace (Z.to_nat (ceil_div (hi - lo) step)) with 0%nat.
    - cbn [seq map]. now rewrite py_index_nil.
    - assert (ceil_div (hi - lo) step <= 0); [|lia].
      apply ceil_div_nonpos; lia. }
  unfold strategy_branch.
  destruct Hs as [Hs | [Hs | Hs]]; rewrite Hs, Hlo, Hhi;
    cbn [String.eqb Ascii.eqb Bool.eqb bind ret Monad_result result_bind];
    rewrite Herr by lia; reflexivity.
Qed.

Lemma strategy_branch_unknown (rq : request) (kwargs : pf_kwargs) :
  selected_strategy rq <> "SMA Crossover"%string ->
  selected_strategy rq <> "EMA Crossover"%string ->
  selected_strategy rq <> "RSI"%string ->
  strategy_branch rq kwargs = Ok None.
Proof.
  intros H1 H2 H3. unfold strategy_branch.
  apply String.eqb_neq in H1, H2, H3. now rewrite H1, H2, H3.
Qed.

(** The windows' part of a run whose strategy branch binds nothing, or
    raises, makes no call. *)
Lemma exec_run_windows_no_branch (h : handler) (rq : request)
  (in_price out_price : Price) (out_dates : list DateIndex)
  (interval : formatted) :
  time_interval (selected_timeframe rq) = Ok interval ->
  exec h (run_windows rq in_price out_price out_dates)
  = match strategy_branch rq
            (mk_pf_kwargs (selected_direction rq) interval 100 0 0) with
    | Raise e => ([], Raise e)
    | Ok None => ([], Raise UnboundLocalError)
    | Ok (Some env) => exec h (run_windows rq in_price out_price out_dates)
    end.
Proof.
  intros Hti.
  destruct (strategy_branch rq (mk_pf_kwargs (selected_direction rq) interval 100 0 0))
    as [[env|]|e] eqn:Hb; [reflexivity| |];
    unfold run_windows; cbn [bind ret Monad_prog]; rewrite Hti;
    cbn [lift prog_bind]; rewrite Hb; reflexivity.
Qed.

(** X10: for a strategy other than 'SMA Crossover', 'EMA Crossover' and
    'RSI' no branch of lines 86-139 is taken; the run fetches the series,
    splits it, and then raises an UnboundLocalError at line 154, before any
    indicator or simulation. *)
Theorem unknown_strategy_is_unbound
  (h : handler) (data_type : string) (rq : request)
  (start_date end_date : string) (df : DataFrame) (close : Close) (wl : Z)
  (windows : (Price * list DateIndex) * (Price * list DateIndex))
  (interval : formatted) :
  py_index (dates rq) 0 = Ok start_date ->
  py_index (dates rq) 1 = Ok end_date ->
  h (cached_df (selected_timeframe rq) (selected_asset rq) start_date end_date)
  = Ok df ->
  select_close data_type df = Some close ->
  window_len (Z.of_nat (List.length df)) (nwindows rq) = Ok wl ->
  h (rolling_split close (nwindows rq) (inject_Z (insample rq) / 100)%Q wl)
  = Ok windows ->
  time_interval (selected_timeframe rq) = Ok interval ->
  selected_strategy rq <> "SMA Crossover"%string ->
  selected_strategy rq <> "EMA Crossover"%string ->
  selected_strategy rq <> "RSI"%string ->
  exec h (perform_backtest data_type rq)
  = ([cached_df (selected_timeframe rq) (selected_asset rq) start_date end_date;
      rolling_split close (nwindows rq) (inject_Z (insample rq) / 100)%Q wl],
     Raise UnboundLocalError).
Proof.
  intros Hd0 Hd1 Hdf Hclose Hwl Hsplit Hti H1 H2 H3.
  rewrite (exec_perform_backtest h data_type rq _ _ _ _ _ Hd0 Hd1 Hdf Hclose Hwl).
  cbv zeta. rewrite Hsplit. destruct windows as [in_windows out_windows].
  unfold trace, outcome.
  rewrite (exec_run_windows_no_branch h rq _ _ _ interval Hti).
  rewrite (strategy_branch_unknown rq _ H1 H2 H3). reflexivity.
Qed.

(** X11: when the upper end of the parameter range is not above its lower
    end, the grid of each of the three strategies is empty and the run raises
    an IndexError (from [closed_arange]) right after the split, before any
    indicator or simulation. *)
Theorem degenerate_range_is_index_error
  (h : handler) (data_type : string) (rq : request)
  (start_date end_date : string) (df : DataFrame) (close : Close) (wl : Z)
  (windows : (Price * list DateIndex) * (Price * list DateIndex))
  (interval : formatted) (lo hi : Z) :
  py_index (dates rq) 0 = Ok start_date ->
  py_index (dates rq) 1 = Ok end_date ->
  h (cached_df (selected_timeframe rq) (selected_asset rq) start_date end_date)
  = Ok df ->
  select_close data_type df = Some close ->
  window_len (Z.of_nat (List.length df)) (nwindows rq) = Ok wl ->
  h (rolling_split close (nwindows rq) (inject_Z (insample rq) / 100)%Q wl)
  = Ok windows ->
  time_interval (selected_timeframe rq) = Ok interval ->
  selected_strategy rq = "SMA Crossover"%string \/
  selected_strategy rq = "EMA Crossover"%string \/
  selected_strategy rq = "RSI"%string ->
  py_index (selected_range rq) 0 = Ok lo ->
  py_index (selected_range rq) 1 = Ok hi ->
  hi <= lo ->
  exec h (perform_backtest data_type rq)
  = ([cached_df (selected_timeframe rq) (selected_asset rq) start_date end_date;
      rolling_split close (nwindows rq) (inject_Z (insample rq) / 100)%Q wl],
     Raise IndexError).
Proof.
  intros Hd0 Hd1 Hdf Hclose Hwl Hsplit Hti Hs Hlo Hhi Hle.
  rewrite (exec_perform_backtest h data_type rq _ _ _ _ _ Hd0 Hd1 Hdf Hclose Hwl).
  cbv zeta. rewrite Hsplit. destruct windows as [in_windows out_windows].
  unfold trace, outcome.
  rewrite (exec_run_windows_no_branch h rq _ _ _ interval Hti).
  rewrite (strategy_branch_degenerate rq _ lo hi Hs Hlo Hhi Hle). reflexivity.
Qed.

(** X12: when the configured data source is neither 'postgres' nor
    'yfinance', [close] is never bound (lines 65-70): the run fetches the
    series and raises an UnboundLocalError at line 75, without calling the
    splitter. *)
Theorem unknown_data_type_is_unbound
  (h : handler) (data_type : string) (rq : request)
  (start_date end_date : string) (df : DataFrame) :
  py_index (dates rq) 0 = Ok start_date ->
  py_index (dates rq) 1 = Ok end_date ->
  h (cached_df (selected_timeframe rq) (selected_asset rq) start_date end_date)
  = Ok df ->
  data_type <> "postgres"%string -> data_type <> "yfinance"%string ->
  -4 <= nwindows rq -> nwindows rq <> 0 ->
  exec h (perform_backtest data_type rq)
  = ([cached_df (selected_timeframe rq) (selected_asset rq) start_date end_date],
     Raise UnboundLocalError).
Proof.
  intros Hd0 Hd1 Hdf Hp Hy HN H0.
  destruct (window_len_returns (Z.of_nat (List.length df)) (nwindows rq) HN H0)
    as [wl Hwl].
  unfold perform_backtest. cbn [bind Monad_prog].
  rewrite Hd0. cbn [lift prog_bind]. rewrite Hd1. cbn [lift prog_bind perform exec].
  rewrite Hdf, Hwl. unfold select_close.
  apply String.eqb_neq in Hp, Hy. rewrite Hp, Hy. reflexivity.
Qed.

(** X13: with fewer than two dates the run raises an IndexError before it
    calls any collaborator. *)
Theorem missing_dates_make_no_call
  (h : handler) (data_type : string) (rq : request) :
  (List.length (dates rq) < 2)%nat ->
  exec h (perform_backtest data_type rq) = ([], Raise IndexError).
Proof.
  intros Hlen. unfold perform_backtest. cbn [bind Monad_prog].
  destruct (dates rq) as [|d0 [|d1 rest]]; cbn in Hlen; try lia; reflexivity.
Qed.

End EarlyErrors.

Lemma unknown_strategy_is_unbound_witness :
  let h := quiet_handler (sample_df 100) sample_series 20 in
  let rq := sample_request "MACD" "15m" "total_return" [10; 210] in
  exec h (perform_backtest "yfinance" rq)
  = ([cached_df "15m" "SPY" "2022-01-03" "2023-01-03";
      rolling_split (map (fun b => (bar_date b, bar_close b)) (sample_df 100))
        5 (inject_Z 70 / 100)%Q 50],
     Raise UnboundLocalError).
Proof.
  cbv zeta.
  apply (unknown_strategy_is_unbound
           (quiet_handler (sample_df 100) sample_series 20) "yfinance"
           (sample_request "MACD" "15m" "total_return" [10; 210])
           "2022-01-03" "2023-01-03" (sample_df 100)
           (map (fun b => (bar_date b, bar_close b)) (sample_df 100)) 50
           ((tt, [tt]), (tt, [tt])) [Flt 55.3846; Lit "m"]);
    first [exact window_len_100_5 | reflexivity | discriminate].
Defined.

Lemma degenerate_range_is_index_error_witness :
  let h := quiet_handler (sample_df 100) sample_series 20 in
  let rq := sample_request "RSI" "15m" "total_return" [30; 30] in
  30 <= 30 /\
  exec h (perform_backtest "yfinance" rq)
  = ([cached_df "15m" "SPY" "2022-01-03" "2023-01-03";
      rolling_split (map (fun b => (bar_date b, bar_close b)) (sample_df 100))
        5 (inject_Z 70 / 100)%Q 50],
     Raise IndexError).
Proof.
  cbv zeta. split; [lia|].
  apply (degenerate_range_is_index_error
           (quiet_handler (sample_df 100) sample_series 20) "yfinance"
           (sample_request "RSI" "15m" "total_return" [30; 30])
           "2022-01-03" "2023-01-03" (sample_df 100)
           (map (fun b => (bar_date b, bar_close b)) (sample_df 100)) 50
           ((tt, [tt]), (tt, [tt])) [Flt 55.3846; Lit "m"] 30 30);
    first [exact window_len_100_5 | reflexivity | lia | (right; right; reflexivity)].
Defined.

Lemma unknown_data_type_is_unbound_witness :
  let h := quiet_handler (sample_df 100) sample_series 20 in
  let rq := sample_request "RSI" "15m" "total_return" [20; 30] in
  exec h (perform_backtest "csv" rq)
  = ([cached_df "15m" "SPY" "2022-01-03" "2023-01-03"], Raise UnboundLocalError).
Proof.
  cbv zeta.
  apply (unknown_data_type_is_unbound
           (quiet_handler (sample_df 100) sample_series 20) "csv"
           (sample_request "RSI" "15m" "total_return" [20; 30])
           "2022-01-03" "2023-01-03" (sample_df 100));
    first [reflexivity | discriminate | (simpl; lia)].
Defined.

Lemma missing_dates_make_no_call_witness :
  let h := quiet_handler (sample_df 100) sample_series 20 in
  let rq :=
    {| n_clicks := 1; session_id := "3f1c"; selected_strategy := "RSI";
       nwindows := 5; insample := 70; selected_timeframe := "1d";
       selected_asset := "SPY"; dates := ["2022-01-03"%string];
       selected_direction := "longonly"; selected_range := [20; 30];
       selected_metric := "sharpe_ratio" |} in
  exec h (perform_backtest "yfinance" rq) = ([], Raise IndexError).
Proof.
  cbv zeta.
  apply (missing_dates_make_no_call
           (quiet_handler (sample_df 100) sample_series 20) "yfinance").
  simpl. lia.
Defined.

(** ** The course of a run *)

Section Flow.
Context {L : Library}.

Lemma run_returns {A} (h : handler) (p : prog A)
  (Q : A -> list call -> Prop) (a : A) :
  wp (answers h) (fun _ => True) p [] Q ->
  outcome h p = Ok a -> Q a (trace h p).
Proof.
  intros Hwp Hout.
  apply (wp_returns (answers h) (fun _ => True) h p [] Q a);
    [intros c r Hr; exact Hr | exact Hwp | exact Hout].
Qed.

(** What a strategy branch binds. *)
Lemma strategy_branch_inv (rq : request) (kwargs : pf_kwargs) (env : strategy_env) :
  strategy_branch rq kwargs = Ok (Some env) ->
  exists lo hi,
    py_index (selected_range rq) 0 = Ok lo /\
    py_index (selected_range rq) 1 = Ok hi /\
    ((exists talib values,
        (selected_strategy rq = "SMA Crossover"%string /\ talib = "SMA"%string \/
         selected_strategy rq = "EMA Crossover"%string /\ talib = "EMA"%string) /\
        closed_arange lo hi 10 (Some int16) = Ok values /\
        parameter_values env = Periods values /\
        backtest_windows env = crossover_windows talib kwargs) \/
     (exists raw,
        selected_strategy rq = "RSI"%string /\
        closed_arange lo hi 2 (Some int16) = Ok raw /\
        parameter_values env
        = Rows (map fst (combinations raw)) (map snd (combinations raw)) /\
        backtest_windows env = rsi_windows kwargs)).
Proof.
  unfold strategy_branch. intros Henv.
  destruct (String.eqb_spec (selected_strategy rq) "SMA Crossover") as [Hs|_];
    [|destruct (String.eqb_spec (selected_strategy rq) "EMA Crossover") as [Hs|_];
      [|destruct (String.eqb_spec (selected_strategy rq) "RSI") as [Hs|_];
        [|discriminate]]];
    cbn [bind ret Monad_result result_bind] in Henv;
    destruct (py_index (selected_range rq) 0) as [lo|]; try discriminate;
    destruct (py_index (selected_range rq) 1) as [hi|]; try discriminate;
    cbn [result_bind] in Henv;
    destruct (closed_arange _ _ _ _) as [values|] eqn:Hgrid; try discriminate;
    injection Henv as <-; exists lo, hi; (split; [reflexivity|]);
    (split; [reflexivity|]); cbn [parameter_values backtest_windows].
  - left. exists "SMA"%string, values. auto.
  - left. exists "EMA"%string, values. auto.
  - right. exists values. auto.
Qed.

(** One step of a run whose calls are answered by [h]: the answer of each
    call and the equation of each computed value are kept as hypotheses. *)
Ltac run_step_with solve_invariant :=
  cbn [bind ret Monad_prog app];
  lazymatch goal with
  | |- wp _ _ (prog_bind (perform _) _) _ _ =>
      apply wp_perform; [ solve_invariant | intros ? ? ]
  | |- wp _ _ (perform _) _ _ =>
      cbn [perform wp]; split; [ solve_invariant | intros ? ? ]
  | |- wp _ _ (prog_bind (lift _) _) _ _ =>
      let H := fresh "H" in
      apply wp_lift; intros ? H;
      try (progress (rewrite ?py_index_pair_0, ?py_index_pair_1 in H);
           cbn [result_bind] in H; injection H as <-)
  | |- wp _ _ (prog_bind (unbound _) _) _ _ =>
      let H := fresh "H" in
      apply wp_unbound; intros ? H
  | |- wp _ _ (run_windows _ _ _ _) _ _ => unfold run_windows
  | |- wp _ _ (prog_bind (rsi_windows _ _ _ _) _) _ _ =>
      unfold rsi_windows;
      cbn [bind ret Monad_prog params_index Monad_result result_bind]
  | |- wp _ _ (prog_bind (crossover_windows _ _ _ _ _) _) _ _ =>
      unfold crossover_windows;
      cbn [bind ret Monad_prog params_index Monad_result result_bind]
  | |- wp _ _ (prog_bind (averages _ _) _) _ _ => unfold averages
  | |- wp _ _ (prog_bind (create_table _) _) _ _ => unfold create_table
  | |- wp _ _ (prog_bind (prog_bind _ _) _) _ _ => apply wp_bind
  | |- wp _ _ (prog_bind (if ?b then _ else _) _) _ _ =>
      let H := fresh "H" in destruct b eqn:H
  | |- wp _ _ (prog_bind (Throw _) _) _ _ => exact I
  | |- wp _ _ (prog_bind (Return _) _) _ _ => cbn [prog_bind]
  | |- wp _ _ (match ?x with (_, _) => _ end) _ _ => destruct x
  | |- wp _ _ (Return _) _ _ => cbn [wp]
  | |- wp _ _ (Throw _) _ _ => exact I
  end.

Ltac run_step := run_step_with ltac:(exact I).

(** A call made twice has one answer. *)
Ltac same_answers h :=
  repeat match goal with
         | H1 : answers h ?c ?r1, H2 : answers h ?c ?r2 |- _ =>
             assert (r1 = r2) by (unfold answers in H1, H2; congruence);
             subst r2; clear H2
         end.

(** The branch taken, once the names it binds are used. *)
Ltac branch_taken :=
  match goal with
  | H : strategy_branch _ _ = Ok ?o, H' : ?o = Some _ |- _ =>
      rewrite H' in H;
      destruct (strategy_branch_inv _ _ _ H)
        as (lo & hi & Hlo & Hhi &
            [(name & values & Hs & Hgrid & -> & ->)
            |(raw & Hs & Hgrid & -> & ->)])
  end.

(** X14: a run that returns its report has split the series once and made
    exactly three simulations, all with the same keyword arguments: the first
    on the in-sample prices the splitter answered, the second and the third on
    its out-of-sample prices. *)
Theorem simulations_walk_forward
  (h : handler) (data_type : string) (rq : request) (r : report) :
  outcome h (perform_backtest data_type rq) = Ok r ->
  exists close wl in_price in_dates out_price out_dates
         entries1 exits1 entries2 exits2 entries3 exits3 kwargs,
    filter is_split (trace h (perform_backtest data_type rq))
    = [rolling_split close (nwindows rq) (inject_Z (insample rq) / 100)%Q wl] /\
    h (rolling_split close (nwindows rq) (inject_Z (insample rq) / 100)%Q wl)
    = Ok ((in_price, in_dates), (out_price, out_dates)) /\
    filter is_simulation (trace h (perform_backtest data_type rq))
    = [from_signals in_price entries1 exits1 kwargs;
       from_signals out_price entries2 exits2 kwargs;
       from_signals out_price entries3 exits3 kwargs].
Proof.
  apply (run_returns h (perform_backtest data_type rq)
           (fun _ t =>
              exists close wl in_price in_dates out_price out_dates
                     entries1 exits1 entries2 exits2 entries3 exits3 kwargs,
                filter is_split t
                = [rolling_split close (nwindows rq)
                     (inject_Z (insample rq) / 100)%Q wl] /\
                h (rolling_split close (nwindows rq)
                     (inject_Z (insample rq) / 100)%Q wl)
                = Ok ((in_price, in_dates), (out_price, out_dates)) /\
                filter is_simulation t
                = [from_signals in_price entries1 exits1 kwargs;
                   from_signals out_price entries2 exits2 kwargs;
                   from_signals out_price entries3 exits3 kwargs])).
  unfold perform_backtest.
  repeat run_step. branch_taken; repeat run_step.
  all: do 13 eexists;
    (split; [cbn [filter is_split]; reflexivity|]);
    (split; [eassumption|]);
    cbn [filter is_simulation]; reflexivity.
Qed.

(** X15: in a run of a crossover strategy that returns its report, the
    indicator (SMA or EMA, after the strategy) is computed four times: on the
    in-sample prices for all pairs of periods of the grid
    [closed_arange(lo, hi, 10)], on the out-of-sample prices per column for
    the fast and for the slow periods selected, and on the out-of-sample
    prices for the whole grid again; the periods selected are those
    [get_optimal_parameters] returns on the metric of the in-sample
    simulation. *)
Theorem crossover_test_uses_selection
  (h : handler) (data_type : string) (rq : request) (r : report)
  (talib : string) :
  selected_strategy rq = "SMA Crossover"%string /\ talib = "SMA"%string \/
  selected_strategy rq = "EMA Crossover"%string /\ talib = "EMA"%string ->
  outcome h (perform_backtest data_type rq) = Ok r ->
  exists lo hi values in_price out_price entries exits kwargs
         pf_insample metric rows,
    py_index (selected_range rq) 0 = Ok lo /\
    py_index (selected_range rq) 1 = Ok hi /\
    closed_arange lo hi 10 (Some int16) = Ok values /\
    filter is_indicator (trace h (perform_backtest data_type rq))
    = [run_combs talib in_price (Periods values);
       run talib out_price (Array (fst rows)) true;
       run talib out_price (Array (snd rows)) true;
       run_combs talib out_price (Periods values)] /\
    hd_error (filter is_simulation (trace h (perform_backtest data_type rq)))
    = Some (from_signals in_price entries exits kwargs) /\
    h (from_signals in_price entries exits kwargs) = Ok pf_insample /\
    h (deep_getattr pf_insample (selected_metric rq)) = Ok metric /\
    get_optimal_parameters (selected_metric rq) metric = Ok rows.
Proof.
  intros Hstrategy.
  apply (run_returns h (perform_backtest data_type rq)
           (fun _ t =>
              exists lo hi values in_price out_price entries exits kwargs
                     pf_insample metric rows,
                py_index (selected_range rq) 0 = Ok lo /\
                py_index (selected_range rq) 1 = Ok hi /\
                closed_arange lo hi 10 (Some int16) = Ok values /\
                filter is_indicator t
                = [run_combs talib in_price (Periods values);
                   run talib out_price (Array (fst rows)) true;
                   run talib out_price (Array (snd rows)) true;
                   run_combs talib out_price (Periods values)] /\
                hd_error (filter is_simulation t)
                = Some (from_signals in_price entries exits kwargs) /\
                h (from_signals in_price entries exits kwargs) = Ok pf_insample /\
                h (deep_getattr pf_insample (selected_metric rq)) = Ok metric /\
                get_optimal_parameters (selected_metric rq) metric = Ok rows)).
  unfold perform_backtest.
  repeat run_step. branch_taken.
  - assert (name = talib) as ->
      by (destruct Hs as [[Hs ->]|[Hs ->]], Hstrategy as [[Hs' ->]|[Hs' ->]];
          congruence).
    repeat run_step.
    exists lo, hi, values. do 8 eexists.
    do 3 (split; [assumption|]).
    split; [cbn [filter is_indicator]; reflexivity|].
    split; [cbn [filter is_simulation hd_error]; reflexivity|].
    split; [eassumption|]. split; eassumption.
  - exfalso. destruct Hstrategy as [[Hs' _]|[Hs' _]]; congruence.
Qed.

(** X16: in a run of the RSI strategy that returns its report, the
    thresholds submitted are, in this order, the whole grid on the in-sample
    prices, the thresholds [get_optimal_parameters] returns on the metric of
    the in-sample simulation, and the whole grid again; the RSI is computed
    once for each, on the in-sample prices first and on the out-of-sample
    prices then. *)
Theorem rsi_test_uses_selection
  (h : handler) (data_type : string) (rq : request) (r : report) :
  selected_strategy rq = "RSI"%string ->
  outcome h (perform_backtest data_type rq) = Ok r ->
  exists lo hi raw in_price out_price entries exits kwargs
         pf_insample metric rows,
    py_index (selected_range rq) 0 = Ok lo /\
    py_index (selected_range rq) 1 = Ok hi /\
    closed_arange lo hi 2 (Some int16) = Ok raw /\
    filter is_indicator (trace h (perform_backtest data_type rq))
    = [run "RSI" in_price (Scalar 14) false;
       run "RSI" out_price (Scalar 14) false;
       run "RSI" out_price (Scalar 14) false] /\
    submissions (trace h (perform_backtest data_type rq))
    = [(Array (map fst (combinations raw)), Array (map snd (combinations raw)));
       (Array (fst rows), Array (snd rows));
       (Array (map fst (combinations raw)), Array (map snd (combinations raw)))] /\
    hd_error (filter is_simulation (trace h (perform_backtest data_type rq)))
    = Some (from_signals in_price entries exits kwargs) /\
    h (from_signals in_price entries exits kwargs) = Ok pf_insample /\
    h (deep_getattr pf_insample (selected_metric rq)) = Ok metric /\
    get_optimal_parameters (selected_metric rq) metric = Ok rows.
Proof.
  intros Hstrategy.
  apply (run_returns h (perform_backtest data_type rq)
           (fun _ t =>
              exists lo hi raw in_price out_price entries exits kwargs
                     pf_insample metric rows,
                py_index (selected_range rq) 0 = Ok lo /\
                py_index (selected_range rq) 1 = Ok hi /\
                closed_arange lo hi 2 (Some int16) = Ok raw /\
                filter is_indicator t
                = [run "RSI" in_price (Scalar 14) false;
                   run "RSI" out_price (Scalar 14) false;
                   run "RSI" out_price (Scalar 14) false] /\
                submissions t
                = [(Array (map fst (combinations raw)),
                    Array (map snd (combinations raw)));
                   (Array (fst rows), Array (snd rows));
                   (Array (map fst (combinations raw)),
                    Array (map snd (combinations raw)))] /\
                hd_error (filter is_simulation t)
                = Some (from_signals in_price entries exits kwargs) /\
                h (from_signals in_price entries exits kwargs) = Ok pf_insample /\
                h (deep_getattr pf_insample (selected_metric rq)) = Ok metric /\
                get_optimal_parameters (selected_metric rq) metric = Ok rows)).
  unfold perform_backtest.
  repeat run_step. branch_taken.
  - exfalso. destruct Hs as [[Hs _]|[Hs _]]; congruence.
  - repeat run_step.
    exists lo, hi, raw. do 8 eexists.
    do 3 (split; [assumption|]).
    split; [cbn [filter is_indicator]; reflexivity|].
    split; [cbn [submissions]; reflexivity|].
    split; [cbn [filter is_simulation hd_error]; reflexivity|].
    split; [eassumption|]. split; eassumption.
Qed.

(** A run that returns has split the series once. *)
Lemma successful_run_splits_once
  (h : handler) (data_type : string) (rq : request) (r : report) :
  outcome h (perform_backtest data_type rq) = Ok r ->
  List.length (filter is_split (trace h (perform_backtest data_type rq))) = 1%nat.
Proof.
  apply (run_returns h (perform_backtest data_type rq)
           (fun _ t => List.length (filter is_split t) = 1%nat)).
  unfold perform_backtest.
  repeat run_step. branch_taken; repeat run_step; same_answers h; reflexivity.
Qed.

(** X17: in a run that returns its report, every simulation of a
    crossover strategy enters where the fast average crosses above the slow
    one and exits where it crosses below, both averages being computed on the
    prices simulated; every simulation of the RSI strategy enters where the
    RSI of period 14 crosses below the entry thresholds and exits where it
    crosses above the exit thresholds. *)
Theorem signals_of_simulations
  (h : handler) (data_type : string) (rq : request) (r : report) :
  outcome h (perform_backtest data_type rq) = Ok r ->
  (selected_strategy rq = "SMA Crossover"%string ->
   Forall (crossover_signals h "SMA") (trace h (perform_backtest data_type rq))) /\
  (selected_strategy rq = "EMA Crossover"%string ->
   Forall (crossover_signals h "EMA") (trace h (perform_backtest data_type rq))) /\
  (selected_strategy rq = "RSI"%string ->
   Forall (rsi_signals h) (trace h (perform_backtest data_type rq))).
Proof.
  apply (run_returns h (perform_backtest data_type rq)
           (fun _ t =>
              (selected_strategy rq = "SMA Crossover"%string ->
               Forall (crossover_signals h "SMA") t) /\
              (selected_strategy rq = "EMA Crossover"%string ->
               Forall (crossover_signals h "EMA") t) /\
              (selected_strategy rq = "RSI"%string ->
               Forall (rsi_signals h) t))).
  unfold perform_backtest.
  repeat run_step. branch_taken; repeat run_step; same_answers h.
  - repeat split; intros Hst.
    3: exfalso; destruct Hs as [[Hs _]|[Hs _]]; congruence.
    all: match goal with
         | |- Forall (crossover_signals _ ?talib) _ =>
             assert (name = talib) as ->
               by (destruct Hs as [[Hs ->]|[Hs ->]]; congruence)
         end.
    all: repeat (apply Forall_cons;
                 [first [exact I
                        | cbn [crossover_signals]; do 2 eexists;
                          split; [|split; eassumption];
                          first [left; eexists; eassumption
                                | right; do 2 eexists; split; eassumption]]|]);
      apply Forall_nil.
  - repeat split; intros Hst; try (exfalso; congruence).
    repeat (apply Forall_cons;
            [first [exact I
                   | cbn [rsi_signals]; do 3 eexists;
                     split; [eassumption|]; split; eassumption]|]);
      apply Forall_nil.
Qed.

(** X18: a run that returns its report has written the cache exactly
    once: under the session id, for 7200 seconds, and what it stored is the
    pickle of the portfolio of the second simulation, the out-of-sample test
    of the selected parameters. *)
Theorem cache_holds_out_of_sample_portfolio
  (h : handler) (data_type : string) (rq : request) (r : report) :
  outcome h (perform_backtest data_type rq) = Ok r ->
  exists price entries exits kwargs pf_outsample pickled_portfolio,
    nth_error (filter is_simulation (trace h (perform_backtest data_type rq))) 1
    = Some (from_signals price entries exits kwargs) /\
    h (from_signals price entries exits kwargs) = Ok pf_outsample /\
    h (dumps pf_outsample) = Ok pickled_portfolio /\
    filter is_cache_write (trace h (perform_backtest data_type rq))
    = [cache_set (session_id rq) pickled_portfolio 7200].
Proof.
  apply (run_returns h (perform_backtest data_type rq)
           (fun _ t =>
              exists price entries exits kwargs pf_outsample pickled_portfolio,
                nth_error (filter is_simulation t) 1
                = Some (from_signals price entries exits kwargs) /\
                h (from_signals price entries exits kwargs) = Ok pf_outsample /\
                h (dumps pf_outsample) = Ok pickled_portfolio /\
                filter is_cache_write t
                = [cache_set (session_id rq) pickled_portfolio 7200])).
  unfold perform_backtest.
  repeat run_step. branch_taken; repeat run_step.
  all: do 6 eexists;
    (split; [cbn [filter is_simulation nth_error]; reflexivity|]);
    (split; [eassumption|]);
    (split; [eassumption|]);
    cbn [filter is_cache_write]; reflexivity.
Qed.

Lemma np_arange_from_one (n : Z) :
  0 <= n < 2 ^ 15 ->
  exists windows,
    np_arange 1 (n + 1) 1 None = Ok windows /\
    map (cast int16) windows = progression 1 1 (Z.to_nat n).
Proof.
  intros Hn. change (2 ^ 15) with 32768 in Hn. eexists. split.
  - apply np_arange_progression; [lia| |];
      unfold fits; cbn [dtype_or_default bits];
      change (2 ^ (64 - 1)) with 9223372036854775808; lia.
  - rewrite ceil_div_pos by lia.
    replace ((n + 1 - 1) mod 1 =? 0) with true
      by (symmetry; apply Z.eqb_eq, Z.mod_1_r).
    rewrite Z.div_1_r. replace (n + 1 - 1) with n by lia.
    unfold progression. rewrite map_map. apply map_ext_in.
    intros i Hi. apply in_seq in Hi. apply cast_fits.
    unfold fits. cbn [bits]. change (2 ^ (16 - 1)) with 32768. lia.
Qed.

(** X19: a run that returns its report builds three frames from arrays:
    the window numbers (1 to nwindows, for a window count within int16) under
    the name 'Window'; the parameters selected on the in-sample metric, cast
    to int16, under the two column names of the strategy; and the parameters
    selected on the metric of the out-of-sample sweep, cast to int16, without
    names. *)
Theorem report_frames
  (h : handler) (data_type : string) (rq : request) (r : report) :
  outcome h (perform_backtest data_type rq) = Ok r ->
  exists env kwargs windows
         price1 entries1 exits1 pf_insample metric1 outsample_parameters
         price3 entries3 exits3 pf_outsample_optimized metric3 optimal_parameters,
    strategy_branch rq kwargs = Ok (Some env) /\
    np_arange 1 (nwindows rq + 1) 1 None = Ok windows /\
    nth_error (filter is_simulation (trace h (perform_backtest data_type rq))) 0
    = Some (from_signals price1 entries1 exits1 kwargs) /\
    h (from_signals price1 entries1 exits1 kwargs) = Ok pf_insample /\
    h (deep_getattr pf_insample (selected_metric rq)) = Ok metric1 /\
    get_optimal_parameters (selected_metric rq) metric1 = Ok outsample_parameters /\
    nth_error (filter is_simulation (trace h (perform_backtest data_type rq))) 2
    = Some (from_signals price3 entries3 exits3 kwargs) /\
    h (from_signals price3 entries3 exits3 kwargs) = Ok pf_outsample_optimized /\
    h (deep_getattr pf_outsample_optimized (selected_metric rq)) = Ok metric3 /\
    get_optimal_parameters (selected_metric rq) metric3 = Ok optimal_parameters /\
    frames_built (trace h (perform_backtest data_type rq))
    = [([map (cast int16) windows], Some ["Window"%string]);
       ([map (cast int16) (fst outsample_parameters);
         map (cast int16) (snd outsample_parameters)],
        Some (columns_list env));
       ([map (cast int16) (fst optimal_parameters);
         map (cast int16) (snd optimal_parameters)],
        None)] /\
    (0 <= nwindows rq < 2 ^ 15 ->
     map (cast int16) windows = progression 1 1 (Z.to_nat (nwindows rq))).
Proof.
  apply (run_returns h (perform_backtest data_type rq)
           (fun _ t =>
              exists env kwargs windows
                     price1 entries1 exits1 pf_insample metric1 outsample_parameters
                     price3 entries3 exits3 pf_outsample_optimized metric3
                     optimal_parameters,
                strategy_branch rq kwargs = Ok (Some env) /\
                np_arange 1 (nwindows rq + 1) 1 None = Ok windows /\
                nth_error (filter is_simulation t) 0
                = Some (from_signals price1 entries1 exits1 kwargs) /\
                h (from_signals price1 entries1 exits1 kwargs) = Ok pf_insample /\
                h (deep_getattr pf_insample (selected_metric rq)) = Ok metric1 /\
                get_optimal_parameters (selected_metric rq) metric1
                = Ok outsample_parameters /\
                nth_error (filter is_simulation t) 2
                = Some (from_signals price3 entries3 exits3 kwargs) /\
                h (from_signals price3 entries3 exits3 kwargs)
                = Ok pf_outsample_optimized /\
                h (deep_getattr pf_outsample_optimized (selected_metric rq))
                = Ok metric3 /\
                get_optimal_parameters (selected_metric rq) metric3
                = Ok optimal_parameters /\
                frames_built t
                = [([map (cast int16) windows], Some ["Window"%string]);
                   ([map (cast int16) (fst outsample_parameters);
                     map (cast int16) (snd outsample_parameters)],
                    Some (columns_list env));
                   ([map (cast int16) (fst optimal_parameters);
                     map (cast int16) (snd optimal_parameters)],
                    None)] /\
                (0 <= nwindows rq < 2 ^ 15 ->
                 map (cast int16) windows
                 = progression 1 1 (Z.to_nat (nwindows rq))))).
  unfold perform_backtest.
  repeat run_step.
  match goal with
  | H : strategy_branch _ _ = Ok ?o, H' : ?o = Some _ |- _ =>
      pose proof H as Hbranch; rewrite H' in Hbranch
  end.
  branch_taken; repeat run_step.
  all: do 15 eexists;
    (split; [exact Hbranch|]);
    (split; [eassumption|]);
    (split; [cbn [filter is_simulation nth_error]; reflexivity|]);
    (split; [eassumption|]);
    (split; [eassumption|]);
    (split; [eassumption|]);
    (split; [cbn [filter is_simulation nth_error]; reflexivity|]);
    (split; [eassumption|]);
    (split; [eassumption|]);
    (split; [eassumption|]);
    (split; [cbn [frames_built]; reflexivity|]);
    intros Hn;
    destruct (np_arange_from_one (nwindows rq) Hn) as (windows & Hw & Hcol);
    congruence.
Qed.


(** X21: whatever the collaborators answer, the calls of a run come in
    four parts, in this order: the series is fetched and split; the
    indicators, signals, simulations and metrics are computed; the portfolio
    is pickled and stored and the session is printed; the report is built.
    No simulation follows the cache write and no report call precedes it. *)
Theorem calls_come_in_parts
  (h : handler) (data_type : string) (rq : request) :
  in_parts 0 (trace h (perform_backtest data_type rq)) = true.
Proof.
  change (in_parts 0 ([] ++ trace h (perform_backtest data_type rq)) = true).
  apply (wp_sound any_response (fun t => in_parts 0 t = true) h
           (perform_backtest data_type rq) [] (fun _ _ => True)).
  - intros c r _. exact I.
  - reflexivity.
  - unfold perform_backtest.
    repeat (run_step_with ltac:(reflexivity)).
    branch_taken; repeat (run_step_with ltac:(reflexivity)); exact I.
Qed.

Lemma strategy_branch_columns (rq : request) (kwargs : pf_kwargs)
  (env : strategy_env) :
  strategy_branch rq kwargs = Ok (Some env) ->
  List.length (columns_list env) = 2%nat /\
  List.length (optimal_columns_list env) = 7%nat.
Proof.
  unfold strategy_branch.
  destruct (String.eqb (selected_strategy rq) "SMA Crossover");
    [|destruct (String.eqb (selected_strategy rq) "EMA Crossover");
      [|destruct (String.eqb (selected_strategy rq) "RSI"); [|discriminate]]];
    cbn [bind ret Monad_result result_bind];
    destruct (py_index (selected_range rq) 0); try discriminate;
    destruct (py_index (selected_range rq) 1); try discriminate;
    cbn [result_bind];
    destruct (closed_arange _ _ _ _); try discriminate;
    intros [= <-]; split; reflexivity.
Qed.

(** X22: the two tables of a report: the one returned as
    [insample_table] shows the records and the columns of the frame that
    concatenates four frames about the out-of-sample test; the one returned
    as [outsample_table] shows the columns and the values of the frame that
    concatenates six frames and is given the seven comparison names of the
    strategy; both concatenations are rounded to 2 places, and each strategy
    has two parameter names. *)
Theorem report_tables
  (h : handler) (data_type : string) (rq : request) (r : report) :
  outcome h (perform_backtest data_type rq) = Ok r ->
  exists env kwargs frames1 outsample_df frames2 concatenated comparison_df
         data columns header rows,
    strategy_branch rq kwargs = Ok (Some env) /\
    List.length (columns_list env) = 2%nat /\
    List.length (optimal_columns_list env) = 7%nat /\
    filter is_concat (trace h (perform_backtest data_type rq))
    = [pandas (concat_round frames1 2); pandas (concat_round frames2 2)] /\
    List.length frames1 = 4%nat /\ List.length frames2 = 6%nat /\
    h (pandas (concat_round frames1 2)) = Ok outsample_df /\
    h (pandas (concat_round frames2 2)) = Ok concatenated /\
    h (pandas (set_columns concatenated (optimal_columns_list env)))
    = Ok comparison_df /\
    h (to_dict_records outsample_df) = Ok data /\
    h (frame_columns outsample_df) = Ok columns /\
    h (frame_columns comparison_df) = Ok header /\
    h (frame_values comparison_df) = Ok rows /\
    insample_table r = (data, map (fun i => (i, i)) columns) /\
    outsample_table r = (header, rows).
Proof.
  apply (run_returns h (perform_backtest data_type rq)
           (fun r t =>
              exists env kwargs frames1 outsample_df frames2 concatenated
                     comparison_df data columns header rows,
                strategy_branch rq kwargs = Ok (Some env) /\
                List.length (columns_list env) = 2%nat /\
                List.length (optimal_columns_list env) = 7%nat /\
                filter is_concat t
                = [pandas (concat_round frames1 2);
                   pandas (concat_round frames2 2)] /\
                List.length frames1 = 4%nat /\ List.length frames2 = 6%nat /\
                h (pandas (concat_round frames1 2)) = Ok outsample_df /\
                h (pandas (concat_round frames2 2)) = Ok concatenated /\
                h (pandas (set_columns concatenated (optimal_columns_list env)))
                = Ok comparison_df /\
                h (to_dict_records outsample_df) = Ok data /\
                h (frame_columns outsample_df) = Ok columns /\
                h (frame_columns comparison_df) = Ok header /\
                h (frame_values comparison_df) = Ok rows /\
                insample_table r = (data, map (fun i => (i, i)) columns) /\
                outsample_table r = (header, rows))).
  unfold perform_backtest.
  repeat run_step.
  match goal with
  | H : strategy_branch _ _ = Ok ?o, H' : ?o = Some _ |- _ =>
      pose proof H as Hbranch; rewrite H' in Hbranch;
      pose proof (strategy_branch_columns _ _ _ Hbranch) as [Hcols Hoptimal]
  end.
  branch_taken; repeat run_step.
  all: cbn [insample_table outsample_table].
  all: do 11 eexists;
    (split; [exact Hbranch|]);
    (split; [exact Hcols|]);
    (split; [exact Hoptimal|]);
    (split; [cbn [filter is_concat]; reflexivity|]);
    (split; [reflexivity|]);
    (split; [reflexivity|]);
    do 7 (split; [eassumption|]);
    split; reflexivity.
Qed.

End Flow.

(** ** The windows that are plotted *)

Lemma py_int_float_floor (x : Q) :
  (0 <= x)%Q -> py_int_float x = Qfloor x.
Proof.
  intros Hx. unfold py_int_float, Qfloor. destruct x as [num den].
  unfold Qle in Hx. cbn in *. apply Z.quot_div_nonneg; lia.
Qed.

Lemma Qfloor_div (a b : Z) :
  0 < b -> Qfloor (inject_Z a / inject_Z b) = a / b.
Proof.
  intros Hb.
  assert (Heq : (inject_Z a / inject_Z b == a # Z.to_pos b)%Q).
  { rewrite Qmake_Qdiv. rewrite Z2Pos.id by assumption. reflexivity. }
  rewrite Heq. unfold Qfloor. cbn. now rewrite Z2Pos.id.
Qed.

Lemma window_length_value (insample len_df nwindows : Z) :
  0 < insample -> 0 < nwindows -> 0 <= len_df ->
  window_length insample len_df nwindows
  = Ok (200 * len_df / (insample * nwindows)).
Proof.
  intros Hi Hn Hl. unfold window_length.
  replace (insample =? 0) with false by (symmetry; apply Z.eqb_neq; lia).
  replace (nwindows =? 0) with false by (symmetry; apply Z.eqb_neq; lia).
  cbn [ret Monad_result]. f_equal.
  assert (Heq : (200 / inject_Z insample * inject_Z len_df / inject_Z nwindows
                 == inject_Z (200 * len_df) / inject_Z (insample * nwindows))%Q).
  { rewrite !inject_Z_mult. field. split.
    - intros H. apply (inject_Z_injective nwindows 0) in H. lia.
    - intros H. apply (inject_Z_injective insample 0) in H. lia. }
  rewrite py_int_float_floor.
  - rewrite Heq. apply Qfloor_div. nia.
  - rewrite Heq. apply Qle_shift_div_l.
    + change 0%Q with (inject_Z 0). rewrite <- Zlt_Qlt. nia.
    + rewrite Qmult_0_l. change 0%Q with (inject_Z 0). rewrite <- Zle_Qle. nia.
Qed.




(** X25: the plot and the backtest do not split the series alike: with
    the form's initial values (5 windows, 70 percent in sample) and a series
    of 22 bars or more, the window length of the plot, int(200/70 * L / 5),
    is greater than the window length of the backtest, round(L / 2). *)
Theorem plotted_windows_are_longer (len_df : Z) :
  22 <= len_df ->
  exists plotted backtested,
    window_length 70 len_df 5 = Ok plotted /\
    window_len len_df 5 = Ok backtested /\
    backtested < plotted.
Proof.
  intros Hl.
  rewrite window_length_value by lia.
  destruct (overlap_factor_defined 5 ltac:(lia)) as (overlap & Hov & _).
  injection Hov as <-.
  erewrite window_len_value by (first [reflexivity | lra]).
  do 2 eexists. split; [reflexivity|]. split; [reflexivity|].
  pose proof (Z.div_mod (200 * len_df) (70 * 5) ltac:(lia)) as Hdm.
  pose proof (Z.mod_pos_bound (200 * len_df) (70 * 5) ltac:(lia)) as Hm.
  set (w := 200 * len_df / (70 * 5)) in *.
  pose proof (py_round_near (IZR len_df / ((1 - 0.6) * 5))) as [Hr1 Hr2].
  set (b := py_round (IZR len_df / ((1 - 0.6) * 5))) in *. clearbody b.
  replace ((1 - 0.6) * 5)%R with 2%R in Hr1, Hr2 by lra.
  assert (Hb : 2 * b <= len_df + 1).
  { apply le_IZR. rewrite mult_IZR, plus_IZR. lra. }
  lia.
Qed.

Lemma plotted_windows_are_longer_witness :
  22 <= 100 /\
  exists plotted backtested,
    window_length 70 100 5 = Ok plotted /\
    window_len 100 5 = Ok backtested /\
    backtested < plotted.
Proof.
  split; [lia|]. apply (plotted_windows_are_longer 100). lia.
Defined.

(** ** Two numbered runs *)

Example ledger_run_sma :
  let h := ledger_handler (sample_df 100) sample_series 20 in
  let rq := sample_request "SMA Crossover" "15m" "total_return" [10; 30] in
  let kwargs := mk_pf_kwargs "longonly" [Flt 55.3846; Lit "m"] 100 0 0 in
  filter is_simulation (trace h (perform_backtest "yfinance" rq))
  = [@from_signals ledger_library 1 22 23 kwargs;
     @from_signals ledger_library 2 420 421 kwargs;
     @from_signals ledger_library 2 42 43 kwargs] /\
  filter is_cache_write (trace h (perform_backtest "yfinance" rq))
  = [@cache_set ledger_library "3f1c" (-20420) 7200] /\
  exists r, outcome h (perform_backtest "yfinance" rq) = Ok r.
Proof.
  cbv zeta. unfold trace, outcome.
  rewrite (exec_perform_backtest _ "yfinance"
             (sample_request "SMA Crossover" "15m" "total_return" [10; 30])
             "2022-01-03" "2023-01-03" (sample_df 100)
             (map (fun b => (bar_date b, bar_close b)) (sample_df 100)) 50
             eq_refl eq_refl eq_refl eq_refl window_len_100_5).
  split; [vm_compute; reflexivity|].
  split; [vm_compute; reflexivity | eexists; vm_compute; reflexivity].
Qed.

Example ledger_run_rsi :
  let h := ledger_handler (sample_df 100) rsi_series 20 in
  let rq := sample_request "RSI" "1d" "sharpe_ratio" [20; 24] in
  submissions (trace h (perform_backtest "postgres" rq))
  = [(Array [20; 20; 22], Array [22; 24; 24]);
     (Array [20; 22], Array [24; 24]);
     (Array [20; 20; 22], Array [22; 24; 24])] /\
  exists r, outcome h (perform_backtest "postgres" rq) = Ok r.
Proof.
  cbv zeta. unfold trace, outcome.
  rewrite (exec_perform_backtest _ "postgres"
             (sample_request "RSI" "1d" "sharpe_ratio" [20; 24])
             "2022-01-03" "2023-01-03" (sample_df 100)
             (map (fun b => (bar_date b, bar_close b)) (sample_df 100)) 50
             eq_refl eq_refl eq_refl eq_refl window_len_100_5).
  split; [vm_compute; reflexivity | eexists; vm_compute; reflexivity].
Qed.

Lemma simulations_walk_forward_witness :
  let h := ledger_handler (sample_df 100) sample_series 20 in
  let rq := sample_request "SMA Crossover" "15m" "total_return" [10; 30] in
  exists in_price out_price entries1 exits1 entries2 exits2 entries3 exits3 kwargs,
    filter is_simulation (trace h (perform_backtest "yfinance" rq))
    = [@from_signals ledger_library in_price entries1 exits1 kwargs;
       from_signals out_price entries2 exits2 kwargs;
       from_signals out_price entries3 exits3 kwargs].
Proof.
  cbv zeta. pose proof ledger_run_sma as Hrun. cbv zeta in Hrun.
  destruct Hrun as (_ & _ & r & Hr).
  destruct (simulations_walk_forward _ _ _ r Hr)
    as (close & wl & in_price & in_dates & out_price & out_dates &
        e1 & x1 & e2 & x2 & e3 & x3 & kwargs & _ & _ & Hsim).
  exists in_price, out_price, e1, x1, e2, x2, e3, x3, kwargs. exact Hsim.
Defined.

Lemma crossover_test_uses_selection_witness :
  let h := ledger_handler (sample_df 100) sample_series 20 in
  let rq := sample_request "SMA Crossover" "15m" "total_return" [10; 30] in
  exists values in_price out_price rows,
    filter is_indicator (trace h (perform_backtest "yfinance" rq))
    = [@run_combs ledger_library "SMA" in_price (Periods values);
       run "SMA" out_price (Array (fst rows)) true;
       run "SMA" out_price (Array (snd rows)) true;
       run_combs "SMA" out_price (Periods values)].
Proof.
  cbv zeta. pose proof ledger_run_sma as Hrun. cbv zeta in Hrun.
  destruct Hrun as (_ & _ & r & Hr).
  destruct (crossover_test_uses_selection
              (ledger_handler (sample_df 100) sample_series 20) "yfinance"
              (sample_request "SMA Crossover" "15m" "total_return" [10; 30])
              r "SMA" (or_introl (conj eq_refl eq_refl)) Hr)
    as (lo & hi & values & in_price & out_price & entries & exits & kwargs &
        pf & metric & rows & _ & _ & _ & Hind & _).
  exists values, in_price, out_price, rows. exact Hind.
Defined.

Lemma rsi_test_uses_selection_witness :
  let h := ledger_handler (sample_df 100) rsi_series 20 in
  let rq := sample_request "RSI" "1d" "sharpe_ratio" [20; 24] in
  exists raw rows,
    submissions (trace h (perform_backtest "postgres" rq))
    = [(Array (map fst (combinations raw)), Array (map snd (combinations raw)));
       (Array (fst rows), Array (snd rows));
       (Array (map fst (combinations raw)), Array (map snd (combinations raw)))].
Proof.
  cbv zeta. pose proof ledger_run_rsi as Hrun. cbv zeta in Hrun.
  destruct Hrun as (_ & r & Hr).
  destruct (rsi_test_uses_selection
              (ledger_handler (sample_df 100) rsi_series 20) "postgres"
              (sample_request "RSI" "1d" "sharpe_ratio" [20; 24])
              r eq_refl Hr)
    as (lo & hi & raw & in_price & out_price & entries & exits & kwargs &
        pf & metric & rows & _ & _ & _ & _ & Hsub & _).
  exists raw, rows. exact Hsub.
Defined.

Lemma cache_holds_out_of_sample_portfolio_witness :
  let h := ledger_handler (sample_df 100) sample_series 20 in
  let rq := sample_request "SMA Crossover" "15m" "total_return" [10; 30] in
  exists pf_outsample pickled_portfolio,
    h (dumps pf_outsample) = Ok pickled_portfolio /\
    filter is_cache_write (trace h (perform_backtest "yfinance" rq))
    = [@cache_set ledger_library "3f1c" pickled_portfolio 7200].
Proof.
  cbv zeta. pose proof ledger_run_sma as Hrun. cbv zeta in Hrun.
  destruct Hrun as (_ & _ & r & Hr).
  destruct (cache_holds_out_of_sample_portfolio _ _ _ r Hr)
    as (price & entries & exits & kwargs & pf & pickled & _ & _ & Hd & Hc).
  exists pf, pickled. split; [exact Hd | exact Hc].
Defined.

Lemma report_frames_witness :
  let h := ledger_handler (sample_df 100) sample_series 20 in
  let rq := sample_request "SMA Crossover" "15m" "total_return" [10; 30] in
  exists windows outsample_parameters optimal_parameters columns,
    map (cast int16) windows = [1; 2; 3; 4; 5] /\
    frames_built (trace h (perform_backtest "yfinance" rq))
    = [([map (cast int16) windows], Some ["Window"%string]);
       ([map (cast int16) (fst outsample_parameters);
         map (cast int16) (snd outsample_parameters)], Some columns);
       ([map (cast int16) (fst optimal_parameters);
         map (cast int16) (snd optimal_parameters)], None)].
Proof.
  cbv zeta. pose proof ledger_run_sma as Hrun. cbv zeta in Hrun.
  destruct Hrun as (_ & _ & r & Hr).
  destruct (report_frames _ _ _ r Hr)
    as (env & kwargs & windows & p1 & e1 & x1 & pf1 & m1 & rows &
        p3 & e3 & x3 & pf3 & m3 & optimal &
        _ & _ & _ & _ & _ & _ & _ & _ & _ & _ & Hframes & Hwindows).
  exists windows, rows, optimal, (columns_list env).
  split; [|exact Hframes].
  apply Hwindows. cbn. lia.
Defined.


Lemma signals_of_simulations_witness :
  let h := ledger_handler (sample_df 100) rsi_series 20 in
  let rq := sample_request "RSI" "1d" "sharpe_ratio" [20; 24] in
  Forall (rsi_signals h) (trace h (perform_backtest "postgres" rq)).
Proof.
  cbv zeta. pose proof ledger_run_rsi as Hrun. cbv zeta in Hrun.
  destruct Hrun as (_ & r & Hr).
  apply (signals_of_simulations
           (ledger_handler (sample_df 100) rsi_series 20) "postgres"
           (sample_request "RSI" "1d" "sharpe_ratio" [20; 24]) r Hr).
  reflexivity.
Defined.

Lemma report_tables_witness :
  let h := ledger_handler (sample_df 100) sample_series 20 in
  let rq := sample_request "SMA Crossover" "15m" "total_return" [10; 30] in
  exists r data columns header rows,
    outcome h (perform_backtest "yfinance" rq) = Ok r /\
    insample_table r = (data, map (fun i => (i, i)) columns) /\
    outsample_table r = (header, rows).
Proof.
  cbv zeta. pose proof ledger_run_sma as Hrun. cbv zeta in Hrun.
  destruct Hrun as (_ & _ & r & Hr).
  destruct (report_tables _ _ _ r Hr)
    as (env & kwargs & frames1 & outsample_df & frames2 & concatenated &
        comparison_df & data & columns & header & rows &
        _ & _ & _ & _ & _ & _ & _ & _ & _ & _ & _ & _ & _ & Hin & Hout).
  exists r, data, columns, header, rows.
  split; [exact Hr|]. split; [exact Hin | exact Hout].
Defined.
